(** * EigenLVR API: the handlers of [backend/server.py]

    A shallow embedding of the FastAPI handlers of [backend/server.py].
    The handlers draw from Python's [random] module, read the wall clock
    and generate identifiers; all three are threaded through an explicit
    [World], next to the MongoDB collections behind [db]. *)

From Stdlib Require Import ZArith List String Ascii Bool Lia.
From Stdlib Require Import Sorted Permutation.
Import ListNotations.

Local Open Scope string_scope.
Local Open Scope Z_scope.

(** ** Printing numbers the way Python's format specs do *)

Module Fmt.

(** One digit of a base up to sixteen, lower case as [:x] prints it. *)
Definition digit_char (d : Z) : ascii :=
  match d with
  | 0 => "0" | 1 => "1" | 2 => "2" | 3 => "3" | 4 => "4"
  | 5 => "5" | 6 => "6" | 7 => "7" | 8 => "8" | 9 => "9"
  | 10 => "a" | 11 => "b" | 12 => "c" | 13 => "d" | 14 => "e"
  | _ => "f"
  end%char.

Fixpoint digits_from (fuel : nat) (base n : Z) (acc : string) : string :=
  match fuel with
  | O => acc
  | S fuel' =>
      let acc' := String (digit_char (n mod base)) acc in
      if n / base =? 0 then acc' else digits_from fuel' base (n / base) acc'
  end.

(** The digits of a natural number [n] in [base]; ["0"] for zero. *)
Definition to_base (base n : Z) : string :=
  digits_from (S (Z.to_nat (Z.log2 n))) base n "".

(** [f"{n:x}"] and [str(n)] for [n >= 0]. *)
Definition hex (n : Z) : string := to_base 16 n.
Definition dec (n : Z) : string :=
  if n <? 0 then "-" ++ to_base 10 (- n) else to_base 10 n.

(** ['0' * k] *)
Fixpoint zeros (k : nat) : string :=
  match k with
  | O => ""
  | S k' => String "0"%char (zeros k')
  end.

(** Zero padding on the left to [width] characters, as [%02d] does. *)
Definition pad (width : nat) (n : Z) : string :=
  let s := dec n in
  zeros (width - String.length s) ++ s.

(** [f"{n:,}"]: decimal digits in groups of three. *)
Fixpoint group3 (fuel : nat) (n : Z) : string :=
  match fuel with
  | O => dec n
  | S fuel' =>
      if n <? 1000 then dec n
      else group3 fuel' (n / 1000) ++ "," ++ pad 3 (n mod 1000)
  end.

Definition commas (n : Z) : string :=
  group3 (S (Z.to_nat (Z.log2 n))) n.

(** Drop the zeros that end a fraction, keeping one digit. *)
Fixpoint strip_zeros (fuel : nat) (places : nat) (frac : Z) : nat * Z :=
  match fuel with
  | O => (places, frac)
  | S fuel' =>
      if (1 <? Z.of_nat places) && (frac mod 10 =? 0)
      then strip_zeros fuel' (Nat.pred places) (frac / 10)
      else (places, frac)
  end.

(** [str(x)] for the float [x] nearest to [n / 10^places], [n >= 0] and
    [1 <= places]: the shortest decimal that reads back as [x] is the
    decimal expansion of [n / 10^places] without its trailing zeros, and
    [repr] keeps one digit after the point ([6.0], [123.4], [0.85]). *)
Definition float_str (places : nat) (n : Z) : string :=
  let scale := 10 ^ Z.of_nat places in
  let '(p, f) := strip_zeros places places (n mod scale) in
  dec (n / scale) ++ "." ++ pad p f.

(** Reading a decimal back: the value of ["12.5"] in units of
    [10^-places] is [1250] for [places = 2]. *)
Definition digit_val (c : ascii) : option Z :=
  let n := Z.of_N (N_of_ascii c) in
  if (48 <=? n) && (n <=? 57) then Some (n - 48) else None.

Fixpoint read_digits (s : string) (acc : Z) : option (Z * string) :=
  match s with
  | EmptyString => Some (acc, EmptyString)
  | String c rest =>
      match digit_val c with
      | Some d => read_digits rest (10 * acc + d)
      | None => Some (acc, s)
      end
  end.

Definition decimal_value (places : nat) (s : string) : option Z :=
  match read_digits s 0 with
  | Some (whole, String "."%char frac) =>
      match read_digits frac 0 with
      | Some (f, EmptyString) =>
          let k := String.length frac in
          if (1 <=? k)%nat && (k <=? places)%nat
          then Some (whole * 10 ^ Z.of_nat places
                     + f * 10 ^ Z.of_nat (places - k))
          else None
      | _ => None
      end
  | _ => None
  end.

End Fmt.

(** ** Binary floating point, exactly

    A positive finite double is [mant * 2^expo] with
    [2^52 <= mant < 2^53].  Rounding is to nearest, ties to even, as IEEE 754
    and CPython do; subnormals and overflow are out of reach of the values the
    handlers compute. *)

Module Float.

Record double := { mant : Z; expo : Z }.

(** [a / b] rounded to the nearest integer, ties to even ([0 <= a],
    [0 < b]). *)
Definition rne_div (a b : Z) : Z :=
  let '(q, r) := Z.div_eucl a b in
  if 2 * r <? b then q
  else if b <? 2 * r then q + 1
  else if Z.even q then q else q + 1.

(** [n / d * 2^-e] as a fraction. *)
Definition scaled (n d e : Z) : Z * Z :=
  if 0 <=? e then (n, d * 2 ^ e) else (n * 2 ^ (- e), d).

(** The double nearest to [n / d], for [0 < n] and [0 < d]. *)
Definition of_ratio (n d : Z) : double :=
  let e0 := Z.log2 n - Z.log2 d - 52 in
  let '(a0, b0) := scaled n d e0 in
  let e := if a0 <? 2 ^ 52 * b0 then e0 - 1 else e0 in
  let '(a, b) := scaled n d e in
  let m := rne_div a b in
  if m =? 2 ^ 53 then {| mant := 2 ^ 52; expo := e + 1 |}
  else {| mant := m; expo := e |}.

Definition to_ratio (x : double) : Z * Z :=
  if 0 <=? expo x then (mant x * 2 ^ expo x, 1)
  else (mant x, 2 ^ (- expo x)).

(** [x * y] *)
Definition mul (x y : double) : double :=
  let e := expo x + expo y in
  of_ratio (mant x * mant y * 2 ^ Z.max e 0) (2 ^ Z.max (- e) 0).

(** The double a decimal literal or a rounded value denotes:
    the one nearest to [n / 10^places]. *)
Definition of_decimal (places n : Z) : double := of_ratio n (10 ^ places).

(** [round(x, places)], as the integer [n] with result [n / 10^places]:
    CPython rounds the exact binary value of [x], ties to even. *)
Definition round_places (places : Z) (x : double) : Z :=
  let '(n, d) := to_ratio x in
  rne_div (n * 10 ^ places) d.

End Float.

(** ** Calendar time

    A [datetime] is a count of microseconds since 1970-01-01 00:00:00 on
    the proleptic Gregorian calendar; years are taken to have four digits. *)

Module Clock.

Definition us_per_second : Z := 1000000.
Definition us_per_minute : Z := 60 * us_per_second.

(** [timedelta(minutes=n)] *)
Definition minutes (n : Z) : Z := n * us_per_minute.

(** Year, month and day of a day count from the epoch. *)
Definition civil_from_days (days : Z) : Z * Z * Z :=
  let z := days + 719468 in
  let era := z / 146097 in
  let doe := z mod 146097 in
  let yoe := (doe - doe / 1460 + doe / 36524 - doe / 146096) / 365 in
  let doy := doe - (365 * yoe + yoe / 4 - yoe / 100) in
  let mp := (5 * doy + 2) / 153 in
  let d := doy - (153 * mp + 2) / 5 + 1 in
  let m := if mp <? 10 then mp + 3 else mp - 9 in
  let y := yoe + era * 400 + (if m <=? 2 then 1 else 0) in
  (y, m, d).

Definition date_part (t : Z) : string :=
  let '(y, m, d) := civil_from_days (t / us_per_second / 86400) in
  Fmt.pad 4 y ++ "-" ++ Fmt.pad 2 m ++ "-" ++ Fmt.pad 2 d.

Definition time_part (t : Z) : string :=
  let sod := (t / us_per_second) mod 86400 in
  Fmt.pad 2 (sod / 3600) ++ ":" ++ Fmt.pad 2 (sod mod 3600 / 60)
    ++ ":" ++ Fmt.pad 2 (sod mod 60).

(** [t.strftime("%Y-%m-%d %H:%M:%S")] *)
Definition strftime (t : Z) : string := date_part t ++ " " ++ time_part t.

(** [t.isoformat()]: the microseconds are printed unless they are zero. *)
Definition isoformat (t : Z) : string :=
  let us := t mod us_per_second in
  date_part t ++ "T" ++ time_part t
    ++ (if us =? 0 then "" else "." ++ Fmt.pad 6 us).

End Clock.

(** ** The world the handlers run in *)

(** *** Models ([pydantic] classes) *)

Record AuctionSummary := {
  activeAuctions : Z;
  totalMEVRecovered : string;
  totalLPRewards : string;
  avsOperatorCount : Z
}.

Record AuctionRecord := {
  id : string;
  poolId : string;
  winner : string;
  winningBid : string;
  totalBids : Z;
  timestamp : string;
  status : string;
  blockNumber : Z
}.

(** The float fields [lvrReduction] and [reputation] hold values rounded to
    one and two places; they are kept as counts of tenths and of hundredths.
    The [datetime] fields are microsecond counts. *)
Record PoolPerformance := {
  pool_id : string;
  pool_name : string;
  pool_poolId : string;
  tvl : string;
  lvrReduction : Z;
  rewardsDistributed : string;
  lastUpdated : Z
}.

Record AVSOperator := {
  op_id : string;
  address : string;
  stake : string;
  op_status : string;
  tasksCompleted : Z;
  reputation : Z;
  lastSeen : Z
}.

(** *** MongoDB

    A collection is the list of its documents in insertion order.  A stored
    auction is the dictionary of an [AuctionRecord] with the [_id] the driver
    gave it.  MongoDB creates a collection on first use: [operators] stands
    for the operator records a deployment may hold; no handler reads or
    writes it. *)

Record AuctionDocument := {
  oid : string;
  fields : AuctionRecord
}.

Record Db := {
  auctions : list AuctionDocument;
  operators : list AVSOperator
}.

Definition empty_db : Db := {| auctions := []; operators := [] |}.

(** *** State

    [entropy] is what the [random] module draws from, [clock] the successive
    readings of the wall clock (UTC, microseconds), [fresh] the identifiers
    that [uuid.uuid4] and the driver's [ObjectId] hand out.  Each comes with
    the position of its next read. *)

Record World := {
  db : Db;
  entropy : nat -> Z;
  rand_pos : nat;
  clock : nat -> Z;
  clock_pos : nat;
  tz_offset : Z;
  fresh : nat -> string;
  fresh_pos : nat
}.

Definition with_db (d : Db) (w : World) : World :=
  {| db := d; entropy := entropy w; rand_pos := rand_pos w;
     clock := clock w; clock_pos := clock_pos w; tz_offset := tz_offset w;
     fresh := fresh w; fresh_pos := fresh_pos w |}.

(** What a read endpoint can observe besides the database. *)
Definition same_sources (w1 w2 : World) : Prop :=
  entropy w1 = entropy w2 /\ rand_pos w1 = rand_pos w2 /\
  clock w1 = clock w2 /\ clock_pos w1 = clock_pos w2 /\
  tz_offset w1 = tz_offset w2 /\
  fresh w1 = fresh w2 /\ fresh_pos w1 = fresh_pos w2.

(** *** The monad of handlers *)

Definition M (A : Type) : Type := World -> A * World.

Definition ret {A} (a : A) : M A := fun w => (a, w).

Definition bind {A B} (m : M A) (k : A -> M B) : M B :=
  fun w => let '(a, w') := m w in k a w'.

Notation "x <- m ;; k" := (bind m (fun x => k))
  (at level 61, m at next level, right associativity).

(** [n] runs of [m], results in order: [for _ in range(n)]. *)
Fixpoint replicateM {A} (n : nat) (m : M A) : M (list A) :=
  match n with
  | O => ret []
  | S n' => a <- m ;; l <- replicateM n' m ;; ret (a :: l)
  end.

(** [for x in xs] collecting one result per element. *)
Fixpoint forM {A B} (xs : list A) (f : A -> M B) : M (list B) :=
  match xs with
  | [] => ret []
  | x :: xs' => b <- f x ;; l <- forM xs' f ;; ret (b :: l)
  end.

(** *** Primitives *)

Definition draw : M Z :=
  fun w =>
    (entropy w (rand_pos w),
     {| db := db w; entropy := entropy w; rand_pos := S (rand_pos w);
        clock := clock w; clock_pos := clock_pos w; tz_offset := tz_offset w;
        fresh := fresh w; fresh_pos := fresh_pos w |}).

(** [random.randint(a, b)]: an integer [N] with [a <= N <= b]. *)
Definition randint (a b : Z) : M Z :=
  r <- draw ;; ret (a + r mod (b - a + 1)).

(** [round(random.uniform(lo, hi), places)] with the bounds and the result
    in units of [10^-places]: [uniform] lies between its bounds, which have
    at most [places] decimals, so the rounded value does too. *)
Definition round_uniform (lo hi : Z) : M Z := randint lo hi.

(** [random.choice(seq)] *)
Definition choice (seq : list string) : M string :=
  r <- draw ;; ret (nth (Z.to_nat (r mod Z.of_nat (List.length seq))) seq "").

Definition datetime_utcnow : M Z :=
  fun w =>
    (clock w (clock_pos w),
     {| db := db w; entropy := entropy w; rand_pos := rand_pos w;
        clock := clock w; clock_pos := S (clock_pos w);
        tz_offset := tz_offset w;
        fresh := fresh w; fresh_pos := fresh_pos w |}).

(** [datetime.now()]: local time. *)
Definition datetime_now : M Z :=
  t <- datetime_utcnow ;; fun w => (t + tz_offset w, w).

(** [str(uuid.uuid4())] *)
Definition uuid4 : M string :=
  fun w =>
    (fresh w (fresh_pos w),
     {| db := db w; entropy := entropy w; rand_pos := rand_pos w;
        clock := clock w; clock_pos := clock_pos w; tz_offset := tz_offset w;
        fresh := fresh w; fresh_pos := S (fresh_pos w) |}).

(** [db.auctions.insert_one(doc)]: the driver assigns [_id] and appends. *)
Definition insert_one_auction (a : AuctionRecord) : M string :=
  i <- uuid4 ;;
  fun w =>
    (i, with_db {| auctions :=
                     (auctions (db w) ++ [{| oid := i; fields := a |}])%list;
                   operators := operators (db w) |} w).

(** [f"0x{random.randint(100000000, 999999999):x}{'0' * 23}"] *)
Definition random_address : M string :=
  r <- randint 100000000 999999999 ;;
  ret ("0x" ++ Fmt.hex r ++ Fmt.zeros 23).

(** *** Responses

    A handler that returns sends its value with the route's status code;
    FastAPI answers a request it cannot validate with 422 before the handler
    runs, and an [HTTPException] carries its own code. *)

Inductive Response (A : Type) : Type :=
| Success (code : Z) (body : A)
| Failure (code : Z).
Arguments Success {A} code body.
Arguments Failure {A} code.

Definition ValidationError {A} : Response A := Failure 422.

(** ** Handlers *)

(** *** [GET /auctions/summary] *)

(** [round(total_mev * 0.85, 2)], in hundredths, for [total_mev] the double
    of [mev] hundredths. *)
Definition lp_share (mev : Z) : Z :=
  Float.round_places 2
    (Float.mul (Float.of_decimal 2 mev) (Float.of_decimal 2 85)).

Definition get_auction_summary : M (Response AuctionSummary) :=
  base_time <- datetime_now ;;
  active_auctions <- randint 0 5 ;;
  total_mev <- round_uniform 5000 20000 ;;
  let total_rewards := lp_share total_mev in
  operator_count <- randint 8 15 ;;
  ret (Success 200
         {| activeAuctions := active_auctions;
            totalMEVRecovered := Fmt.float_str 2 total_mev;
            totalLPRewards := Fmt.float_str 2 total_rewards;
            avsOperatorCount := operator_count |}).

(** *** [GET /auctions/recent] *)

(** [sorted(xs, key=key, reverse=True)] on string keys: descending, and
    stable, elements with equal keys staying in their order. *)
Fixpoint insert_desc {A} (key : A -> string) (x : A) (l : list A) : list A :=
  match l with
  | [] => [x]
  | y :: l' =>
      if String.ltb (key x) (key y) then y :: insert_desc key x l'
      else x :: l
  end.

Definition sorted_desc {A} (key : A -> string) (xs : list A) : list A :=
  fold_right (insert_desc key) [] xs.

Definition mock_auction : M AuctionRecord :=
  pool_id <- random_address ;;
  winner <- random_address ;;
  winning_bid <- round_uniform 100 5000 ;;
  total_bids <- randint 3 12 ;;
  now <- datetime_now ;;
  mins <- randint 5 1440 ;;
  let timestamp := Clock.strftime (now - Clock.minutes mins) in
  block_number <- randint 18500000 18600000 ;;
  i <- uuid4 ;;
  ret {| id := i;
         poolId := pool_id;
         winner := winner;
         winningBid := Fmt.float_str 3 winning_bid;
         totalBids := total_bids;
         timestamp := timestamp;
         status := "completed";
         blockNumber := block_number |}.

Definition get_recent_auctions : M (Response (list AuctionRecord)) :=
  auctions <- replicateM 10 mock_auction ;;
  ret (Success 200 (sorted_desc timestamp auctions)).

(** *** [GET /pools/performance] *)

Definition pool_names : list string :=
  ["ETH/USDC"; "ETH/USDT"; "WBTC/ETH"; "DAI/USDC"; "LINK/ETH"].

Definition mock_pool (name : string) : M PoolPerformance :=
  pool_id <- random_address ;;
  tvl <- randint 1000000 50000000 ;;
  lvr_reduction <- round_uniform 5 85 ;;
  rewards <- round_uniform 500 2500 ;;
  i <- uuid4 ;;
  updated <- datetime_utcnow ;;
  ret {| pool_id := i;
         pool_name := name;
         pool_poolId := pool_id;
         tvl := Fmt.commas tvl;
         lvrReduction := lvr_reduction;
         rewardsDistributed := Fmt.float_str 2 rewards;
         lastUpdated := updated |}.

Definition get_pool_performance : M (Response (list PoolPerformance)) :=
  pools <- forM pool_names mock_pool ;;
  ret (Success 200 pools).

(** *** [GET /operators] *)

Definition mock_operator : M AVSOperator :=
  address <- random_address ;;
  stake <- randint 1000 10000 ;;
  status <- choice ["active"; "active"; "active"; "inactive"] ;;
  tasks_completed <- randint 50 500 ;;
  reputation <- round_uniform 70 100 ;;
  i <- uuid4 ;;
  seen <- datetime_utcnow ;;
  ret {| op_id := i;
         address := address;
         stake := Fmt.dec stake;
         op_status := status;
         tasksCompleted := tasks_completed;
         reputation := reputation;
         lastSeen := seen |}.

Definition get_avs_operators : M (Response (list AVSOperator)) :=
  operators <- replicateM 12 mock_operator ;;
  ret (Success 200 operators).

(** *** [GET /auctions/{auction_id}] *)

Record Participant := {
  p_address : string;
  bid : string;
  p_timestamp : string
}.

Record AuctionDetails := {
  d_id : string;
  d_poolId : string;
  d_status : string;
  startTime : string;
  endTime : string;
  d_winner : string;
  d_winningBid : string;
  d_totalBids : Z;
  participants : list Participant;
  lvrAmount : string;
  gasUsed : Z;
  d_blockNumber : Z
}.

Definition mock_participant : M Participant :=
  address <- random_address ;;
  bid <- round_uniform 500 4000 ;;
  now <- datetime_now ;;
  mins <- randint 1 4 ;;
  ret {| p_address := address;
         bid := Fmt.float_str 3 bid;
         p_timestamp := Clock.isoformat (now - Clock.minutes mins) |}.

Definition get_auction_details (auction_id : string)
  : M (Response AuctionDetails) :=
  pool_id <- random_address ;;
  start_now <- datetime_now ;;
  end_now <- datetime_now ;;
  winner <- random_address ;;
  winning_bid <- round_uniform 1000 5000 ;;
  total_bids <- randint 5 15 ;;
  count <- randint 3 8 ;;
  participants <- replicateM (Z.to_nat count) mock_participant ;;
  lvr_amount <- round_uniform 2000 10000 ;;
  gas_used <- randint 150000 300000 ;;
  block_number <- randint 18500000 18600000 ;;
  ret (Success 200
         {| d_id := auction_id;
            d_poolId := pool_id;
            d_status := "completed";
            startTime := Clock.isoformat (start_now - Clock.minutes 5);
            endTime := Clock.isoformat end_now;
            d_winner := winner;
            d_winningBid := Fmt.float_str 3 winning_bid;
            d_totalBids := total_bids;
            participants := participants;
            lvrAmount := Fmt.float_str 3 lvr_amount;
            gasUsed := gas_used;
            d_blockNumber := block_number |}).

(** *** [POST /auctions] *)

(** The request body as FastAPI hands it to the model: each key present
    with a value of the field's type, or absent. *)
Record AuctionBody := {
  body_id : option string;
  body_poolId : option string;
  body_winner : option string;
  body_winningBid : option string;
  body_totalBids : option Z;
  body_timestamp : option string;
  body_status : option string;
  body_blockNumber : option Z
}.

(** Building the [AuctionRecord] from the body: [id] and [status] have
    defaults, the other fields are required; the class declares no
    constraint on any value. *)
Definition validate_AuctionRecord (b : AuctionBody)
  : M (option AuctionRecord) :=
  i <- match body_id b with
       | Some i => ret i
       | None => uuid4
       end ;;
  ret (match body_poolId b, body_winner b, body_winningBid b,
             body_totalBids b, body_timestamp b, body_blockNumber b with
       | Some p, Some w, Some wb, Some tb, Some ts, Some bn =>
           Some {| id := i;
                   poolId := p;
                   winner := w;
                   winningBid := wb;
                   totalBids := tb;
                   timestamp := ts;
                   status := match body_status b with
                             | Some s => s
                             | None => "completed"
                             end;
                   blockNumber := bn |}
       | _, _, _, _, _, _ => None
       end).

Record Created := {
  created_id : string;
  message : string
}.

Definition create_auction (auction : AuctionRecord) : M (Response Created) :=
  inserted_id <- insert_one_auction auction ;;
  ret (Success 201
         {| created_id := inserted_id;
            message := "Auction created successfully" |}).

(** The route: validation of the body, then the handler. *)
Definition post_auctions (b : AuctionBody) : M (Response Created) :=
  v <- validate_AuctionRecord b ;;
  match v with
  | Some auction => create_auction auction
  | None => ret ValidationError
  end.

(** *** [GET /health] *)

Record Services := {
  database : string;
  avs : string;
  price_oracle : string
}.

Record Health := {
  h_status : string;
  h_timestamp : string;
  version : string;
  services : Services
}.

Definition health_check : M (Response Health) :=
  now <- datetime_utcnow ;;
  ret (Success 200
         {| h_status := "healthy";
            h_timestamp := Clock.isoformat now;
            version := "1.0.0";
            services := {| database := "connected";
                           avs := "operational";
                           price_oracle := "active" |} |}).

(** ** Sample worlds *)

(** A generator whose raw draws count up, a clock that gains a millisecond
    per reading from 2025-11-03 14:26:40 UTC, identifiers numbered in
    order. *)
Definition sample_world (d : Db) : World :=
  {| db := d;
     entropy := fun n => 7 * Z.of_nat n;
     rand_pos := 0;
     clock := fun n => 1762180000000000 + 1000 * Z.of_nat n;
     clock_pos := 0;
     tz_offset := 0;
     fresh := fun n => "id-" ++ Fmt.dec (Z.of_nat n);
     fresh_pos := 0 |}.

(** The store of the scenario of three completed auctions won at 1.0, 2.0
    and 3.0 and two active operators. *)
Definition scenario_auction (n : Z) (bid : string) : AuctionDocument :=
  {| oid := "oid-" ++ Fmt.dec n;
     fields := {| id := "auction-" ++ Fmt.dec n;
                  poolId := "0x01";
                  winner := "0x02";
                  winningBid := bid;
                  totalBids := 3;
                  timestamp := "2025-11-03 12:00:00";
                  status := "completed";
                  blockNumber := 18500000 |} |}.

Definition scenario_operator (n : Z) : AVSOperator :=
  {| op_id := "operator-" ++ Fmt.dec n;
     address := "0x0" ++ Fmt.dec n;
     stake := "1000";
     op_status := "active";
     tasksCompleted := 50;
     reputation := 100;
     lastSeen := 1762180000000000 |}.

Definition scenario_db : Db :=
  {| auctions := [scenario_auction 1 "1.0"; scenario_auction 2 "2.0";
                  scenario_auction 3 "3.0"];
     operators := [scenario_operator 1; scenario_operator 2] |}.


(** ** Predicates of the properties *)


(** Descending by a string key: [b] may follow [a] when its key is not
    the greater. *)
Definition descending {A} (key : A -> string) (a b : A) : Prop :=
  String.leb (key b) (key a) = true.

(** Descending by timestamp: no record is followed by a later one. *)
Definition timestamp_desc : AuctionRecord -> AuctionRecord -> Prop :=
  descending timestamp.



(** A handler that never writes the database. *)
Definition read_only {A} (m : M A) : Prop :=
  forall w, db (snd (m w)) = db w.

(** A handler whose result and use of its sources do not depend on the
    database. *)
Definition oblivious {A} (m : M A) : Prop :=
  forall w1 w2,
    same_sources w1 w2 ->
    fst (m w1) = fst (m w2) /\ same_sources (snd (m w1)) (snd (m w2)).




Definition same_clock (w w' : World) : Prop :=
  clock w' = clock w /\ tz_offset w' = tz_offset w.

(** The [n] integers from [lo] on. *)
Fixpoint range (lo : Z) (n : nat) : list Z :=
  match n with
  | O => []
  | S n' => lo :: range (lo + 1) n'
  end.

(** ** The other handlers *)

(** *** [GET /] *)

Definition root : M (Response string) :=
  ret (Success 200
         "EigenLVR API - Loss Versus Rebalancing Mitigation System").

(** *** [GET /pools/{pool_id}/metrics] *)

Record PoolMetrics := {
  m_poolId : string;
  totalVolume24h : string;
  fees24h : string;
  lvrDetected : Z;
  auctionsTriggered : Z;
  mevRecovered : string;
  lpRewardsDistributed : string;
  avgAuctionParticipation : Z;
  priceImpactReduction : string
}.

Definition get_pool_metrics (pool_id : string) : M (Response PoolMetrics) :=
  volume <- randint 1000000 10000000 ;;
  fees <- randint 1000 10000 ;;
  lvr_detected <- randint 5 25 ;;
  auctions_triggered <- randint 3 20 ;;
  mev_recovered <- round_uniform 1000 10000 ;;
  lp_rewards <- round_uniform 800 8500 ;;
  participation <- randint 3 12 ;;
  impact <- round_uniform 10 250 ;;
  ret (Success 200
         {| m_poolId := pool_id;
            totalVolume24h := Fmt.commas volume;
            fees24h := Fmt.commas fees;
            lvrDetected := lvr_detected;
            auctionsTriggered := auctions_triggered;
            mevRecovered := Fmt.float_str 2 mev_recovered;
            lpRewardsDistributed := Fmt.float_str 2 lp_rewards;
            avgAuctionParticipation := participation;
            priceImpactReduction := Fmt.float_str 2 impact ++ "%" |}).

(** *** [POST /status] and [GET /status]

    [db.status_checks] is kept beside the [World], whose [Db] holds the
    collections of the auction handlers.  A stored status check is the
    dictionary of a [StatusCheck] with the [_id] the driver gave it. *)

Record StatusCheck := {
  sc_id : string;
  client_name : string;
  sc_timestamp : Z
}.

Record StatusDocument := {
  sd_oid : string;
  sd_fields : StatusCheck
}.

Record Server := {
  world : World;
  status_checks : list StatusDocument
}.

(** A handler of the [World] run in the server. *)
Definition lift {A} (m : M A) (s : Server) : A * Server :=
  let '(a, w) := m (world s) in
  (a, {| world := w; status_checks := status_checks s |}).

(** The handler: the [StatusCheck] built from the input takes its [id]
    from [uuid4] and its [timestamp] from [utcnow]; [insert_one] appends the
    document. *)
Definition create_status_check (input_client_name : string) (s : Server)
  : Response StatusCheck * Server :=
  let '(i, w1) := uuid4 (world s) in
  let '(t, w2) := datetime_utcnow w1 in
  let status_obj :=
    {| sc_id := i; client_name := input_client_name; sc_timestamp := t |} in
  let '(o, w3) := uuid4 w2 in
  (Success 200 status_obj,
   {| world := w3;
      status_checks :=
        (status_checks s ++ [{| sd_oid := o; sd_fields := status_obj |}])%list
   |}).

(** The route: [StatusCheckCreate] requires [client_name]. *)
Definition post_status (body_client_name : option string) (s : Server)
  : Response StatusCheck * Server :=
  match body_client_name with
  | Some n => create_status_check n s
  | None => (ValidationError, s)
  end.

(** [find().to_list(1000)], each document read back as a [StatusCheck]. *)
Definition get_status_checks (s : Server)
  : Response (list StatusCheck) * Server :=
  (Success 200 (map sd_fields (firstn 1000 (status_checks s))), s).

(** ** Predicates of the generated records *)

(** What [random_address] produces. *)
Definition mock_address (s : string) : Prop :=
  exists n,
    100000000 <= n <= 999999999 /\ s = "0x" ++ Fmt.hex n ++ Fmt.zeros 23.

(** A decimal string whose value, in units of [10^-places], lies between
    [lo] and [hi]. *)
Definition decimal_between (places : nat) (lo hi : Z) (s : string) : Prop :=
  exists v, lo <= v <= hi /\ Fmt.decimal_value places s = Some v.

Definition pool_in_bounds (p : PoolPerformance) : Prop :=
  mock_address (pool_poolId p)
  /\ (exists t, 1000000 <= t <= 50000000 /\ tvl p = Fmt.commas t)
  /\ 5 <= lvrReduction p <= 85
  /\ decimal_between 2 500 2500 (rewardsDistributed p).

Definition operator_in_bounds (o : AVSOperator) : Prop :=
  mock_address (address o)
  /\ (exists k, 1000 <= k <= 10000 /\ stake o = Fmt.dec k)
  /\ (op_status o = "active" \/ op_status o = "inactive")
  /\ 50 <= tasksCompleted o <= 500
  /\ 70 <= reputation o <= 100.

(** A generated auction, [w] being the world of the request. *)
Definition auction_in_bounds (w : World) (a : AuctionRecord) : Prop :=
  mock_address (poolId a)
  /\ mock_address (winner a)
  /\ decimal_between 3 100 5000 (winningBid a)
  /\ 3 <= totalBids a <= 12
  /\ (exists n k,
         5 <= k <= 1440
         /\ timestamp a
            = Clock.strftime (clock w n + tz_offset w - Clock.minutes k))
  /\ status a = "completed"
  /\ 18500000 <= blockNumber a <= 18600000.

Definition participant_in_bounds (p : Participant) : Prop :=
  mock_address (p_address p) /\ decimal_between 3 500 4000 (bid p).

Definition metrics_in_bounds (m : PoolMetrics) : Prop :=
  (exists v, 1000000 <= v <= 10000000 /\ totalVolume24h m = Fmt.commas v)
  /\ (exists f, 1000 <= f <= 10000 /\ fees24h m = Fmt.commas f)
  /\ 5 <= lvrDetected m <= 25
  /\ 3 <= auctionsTriggered m <= 20
  /\ decimal_between 2 1000 10000 (mevRecovered m)
  /\ decimal_between 2 800 8500 (lpRewardsDistributed m)
  /\ 3 <= avgAuctionParticipation m <= 12
  /\ (exists i, 10 <= i <= 250
               /\ priceImpactReduction m = Fmt.float_str 2 i ++ "%").

(** The required fields of a create request are all there. *)
Definition complete (b : AuctionBody) : bool :=
  match body_poolId b, body_winner b, body_winningBid b,
        body_totalBids b, body_timestamp b, body_blockNumber b with
  | Some _, Some _, Some _, Some _, Some _, Some _ => true
  | _, _, _, _, _, _ => false
  end.

(** ** More sample inputs *)


Definition sample_server (docs : list StatusDocument) : Server :=
  {| world := sample_world empty_db; status_checks := docs |}.

Definition sample_status (n : nat) : StatusDocument :=
  {| sd_oid := "oid-" ++ Fmt.dec (Z.of_nat n);
     sd_fields := {| sc_id := "status-" ++ Fmt.dec (Z.of_nat n);
                     client_name := "probe";
                     sc_timestamp := 1762180000000000 |} |}.

(** A collection of a thousand status checks. *)
Definition thousand_statuses : list StatusDocument :=
  map sample_status (seq 0 1000).

(** ** JSON and the responses on the wire *)

#[warnings="-register-all"]
Inductive json : Type :=
| JNull
| JBool (b : bool)
| JInt (n : Z)
| JFloat (places : nat) (n : Z)
| JStr (s : string)
| JList (items : list json)
| JDict (entries : list (string * json)).

(** The value of a key of an object. *)
Fixpoint lookup (k : string) (entries : list (string * json)) : option json :=
  match entries with
  | [] => None
  | (k', v) :: rest => if String.eqb k' k then Some v else lookup k rest
  end.

(** What FastAPI sends for each model and dictionary of [server.py]: the
    fields under their names, a [datetime] in ISO format. *)

Definition enc_root (m : string) : json := JDict [("message", JStr m)].

Definition enc_status_check (c : StatusCheck) : json :=
  JDict [("id", JStr (sc_id c));
         ("client_name", JStr (client_name c));
         ("timestamp", JStr (Clock.isoformat (sc_timestamp c)))].

Definition enc_summary (s : AuctionSummary) : json :=
  JDict [("activeAuctions", JInt (activeAuctions s));
         ("totalMEVRecovered", JStr (totalMEVRecovered s));
         ("totalLPRewards", JStr (totalLPRewards s));
         ("avsOperatorCount", JInt (avsOperatorCount s))].

Definition enc_auction (a : AuctionRecord) : json :=
  JDict [("id", JStr (id a));
         ("poolId", JStr (poolId a));
         ("winner", JStr (winner a));
         ("winningBid", JStr (winningBid a));
         ("totalBids", JInt (totalBids a));
         ("timestamp", JStr (timestamp a));
         ("status", JStr (status a));
         ("blockNumber", JInt (blockNumber a))].

Definition enc_pool (p : PoolPerformance) : json :=
  JDict [("id", JStr (pool_id p));
         ("name", JStr (pool_name p));
         ("poolId", JStr (pool_poolId p));
         ("tvl", JStr (tvl p));
         ("lvrReduction", JFloat 1 (lvrReduction p));
         ("rewardsDistributed", JStr (rewardsDistributed p));
         ("lastUpdated", JStr (Clock.isoformat (lastUpdated p)))].

Definition enc_operator (o : AVSOperator) : json :=
  JDict [("id", JStr (op_id o));
         ("address", JStr (address o));
         ("stake", JStr (stake o));
         ("status", JStr (op_status o));
         ("tasksCompleted", JInt (tasksCompleted o));
         ("reputation", JFloat 2 (reputation o));
         ("lastSeen", JStr (Clock.isoformat (lastSeen o)))].

Definition enc_participant (p : Participant) : json :=
  JDict [("address", JStr (p_address p));
         ("bid", JStr (bid p));
         ("timestamp", JStr (p_timestamp p))].

Definition enc_details (d : AuctionDetails) : json :=
  JDict [("id", JStr (d_id d));
         ("poolId", JStr (d_poolId d));
         ("status", JStr (d_status d));
         ("startTime", JStr (startTime d));
         ("endTime", JStr (endTime d));
         ("winner", JStr (d_winner d));
         ("winningBid", JStr (d_winningBid d));
         ("totalBids", JInt (d_totalBids d));
         ("participants", JList (map enc_participant (participants d)));
         ("lvrAmount", JStr (lvrAmount d));
         ("gasUsed", JInt (gasUsed d));
         ("blockNumber", JInt (d_blockNumber d))].

Definition enc_created (c : Created) : json :=
  JDict [("id", JStr (created_id c)); ("message", JStr (message c))].

Definition enc_metrics (m : PoolMetrics) : json :=
  JDict [("poolId", JStr (m_poolId m));
         ("totalVolume24h", JStr (totalVolume24h m));
         ("fees24h", JStr (fees24h m));
         ("lvrDetected", JInt (lvrDetected m));
         ("auctionsTriggered", JInt (auctionsTriggered m));
         ("mevRecovered", JStr (mevRecovered m));
         ("lpRewardsDistributed", JStr (lpRewardsDistributed m));
         ("avgAuctionParticipation", JInt (avgAuctionParticipation m));
         ("priceImpactReduction", JStr (priceImpactReduction m))].

Definition enc_health (h : Health) : json :=
  JDict [("status", JStr (h_status h));
         ("timestamp", JStr (h_timestamp h));
         ("version", JStr (version h));
         ("services",
          JDict [("database", JStr (database (services h)));
                 ("avs", JStr (avs (services h)));
                 ("price_oracle", JStr (price_oracle (services h)))])].

Definition enc_list {A} (enc : A -> json) (l : list A) : json :=
  JList (map enc l).

(** Reading a posted object as the body of a route.  A key is absent, or
    holds a value of the field's type; [None] is a value of another type,
    whose coercion by pydantic is left out. *)
Definition field_str (k : string) (entries : list (string * json))
  : option (option string) :=
  match lookup k entries with
  | None => Some None
  | Some (JStr s) => Some (Some s)
  | Some _ => None
  end.

Definition field_int (k : string) (entries : list (string * json))
  : option (option Z) :=
  match lookup k entries with
  | None => Some None
  | Some (JInt n) => Some (Some n)
  | Some _ => None
  end.

Definition auction_body_of_json (j : json) : option AuctionBody :=
  match j with
  | JDict e =>
      match field_str "id" e, field_str "poolId" e, field_str "winner" e,
            field_str "winningBid" e, field_int "totalBids" e,
            field_str "timestamp" e, field_str "status" e,
            field_int "blockNumber" e with
      | Some i, Some p, Some w, Some wb, Some tb, Some ts, Some st, Some bn =>
          Some {| body_id := i; body_poolId := p; body_winner := w;
                  body_winningBid := wb; body_totalBids := tb;
                  body_timestamp := ts; body_status := st;
                  body_blockNumber := bn |}
      | _, _, _, _, _, _, _, _ => None
      end
  | _ => None
  end.

Definition status_body_of_json (j : json) : option (option string) :=
  match j with
  | JDict e => field_str "client_name" e
  | _ => None
  end.

(** ** Routing *)

(** [s] without the prefix [p], when it begins with it. *)
Fixpoint strip_prefix (p s : string) : option string :=
  match p, s with
  | EmptyString, _ => Some s
  | String c p', String d s' =>
      if Ascii.eqb c d then strip_prefix p' s' else None
  | String _ _, EmptyString => None
  end.

(** [s] without the suffix [suf], when it ends with it. *)
Fixpoint strip_suffix (suf s : string) : option string :=
  if String.eqb s suf then Some EmptyString
  else match s with
       | EmptyString => None
       | String c s' => option_map (String c) (strip_suffix suf s')
       end.

Fixpoint no_slash (s : string) : bool :=
  match s with
  | EmptyString => true
  | String c s' => negb (Ascii.eqb c "/") && no_slash s'
  end.

(** What a path parameter matches: one or more characters other than the
    slash. *)
Definition path_segment (s : string) : bool :=
  negb (String.eqb s "") && no_slash s.

(** [str.upper] on ASCII. *)
Definition upper_ascii (c : ascii) : ascii :=
  let n := N_of_ascii c in
  if (97 <=? n)%N && (n <=? 122)%N then ascii_of_N (n - 32) else c.

Fixpoint upper (s : string) : string :=
  match s with
  | EmptyString => EmptyString
  | String c s' => String (upper_ascii c) (upper s')
  end.

(** [s.startswith(p)] and [s.endswith(suf)] *)
Definition starts_with (p s : string) : bool :=
  match strip_prefix p s with
  | Some _ => true
  | None => false
  end.

Fixpoint ends_with (suf s : string) : bool :=
  String.eqb s suf
  || match s with
     | EmptyString => false
     | String _ s' => ends_with suf s'
     end.

(** ** [backend_test.py] *)

Record TestResult := {
  endpoint : string;
  method : string;
  status_code : option Z;
  response_data : option json;
  success : bool;
  error_message : option string
}.

Record Validation := {
  v_endpoint : string;
  v_method : string;
  valid_schema : bool;
  issues : list string
}.

(** [field in data]: a key of an object, an item of a list, a part of a
    string; [None] is the [TypeError] of the other values. *)
Fixpoint substring_of (t s : string) : bool :=
  starts_with t s
  || match s with
     | EmptyString => false
     | String _ s' => substring_of t s'
     end.

Definition contains (data : json) (field : string) : option bool :=
  match data with
  | JDict entries =>
      Some (existsb (fun kv => String.eqb (fst kv) field) entries)
  | JList items =>
      Some (existsb (fun x => match x with
                              | JStr s => String.eqb s field
                              | _ => false
                              end) items)
  | JStr s => Some (substring_of field s)
  | _ => None
  end.

(** The loop over the required fields: one issue for each that [data]
    lacks. *)
Fixpoint missing (fields : list string) (what : string) (data : json)
  : option (list string) :=
  match fields with
  | [] => Some []
  | field :: rest =>
      match contains data field with
      | None => None
      | Some present =>
          match missing rest what data with
          | None => None
          | Some more =>
              Some (if present then more
                    else ("Missing '" ++ field ++ "' field in " ++ what)
                           :: more)
          end
      end
  end.

(** The check of a list endpoint: a list, and the required fields in its
    first item when it has one. *)
Definition missing_in_first (fields : list string) (what not_list : string)
           (data : json) : option (list string) :=
  match data with
  | JList [] => Some []
  | JList (first :: _) => missing fields what first
  | _ => Some [not_list]
  end.

(** The issues [validate_response_schema] finds in one successful result. *)
Definition schema_issues (r : TestResult) : option (list string) :=
  let data := match response_data r with
              | Some j => j
              | None => JNull
              end in
  let e := endpoint r in
  if String.eqb e "/" then
    match data with
    | JDict entries =>
        if existsb (fun kv => String.eqb (fst kv) "message") entries
        then Some []
        else Some ["Missing 'message' field in root endpoint response"]
    | _ => Some ["Missing 'message' field in root endpoint response"]
    end
  else if String.eqb e "/health" then
    missing ["status"; "timestamp"; "version"; "services"]
            "health check response" data
  else if String.eqb e "/auctions/summary" then
    missing ["activeAuctions"; "totalMEVRecovered"; "totalLPRewards";
             "avsOperatorCount"]
            "auction summary response" data
  else if String.eqb e "/auctions/recent" then
    missing_in_first ["id"; "poolId"; "winner"; "winningBid"; "totalBids";
                      "timestamp"; "blockNumber"]
                     "auction record"
                     "Response is not a list of auction records" data
  else if String.eqb e "/pools/performance" then
    missing_in_first ["id"; "name"; "poolId"; "tvl"; "lvrReduction";
                      "rewardsDistributed"]
                     "pool performance record"
                     "Response is not a list of pool performance records" data
  else if String.eqb e "/operators" then
    missing_in_first ["id"; "address"; "stake"; "status"; "tasksCompleted";
                      "reputation"]
                     "AVS operator record"
                     "Response is not a list of AVS operators" data
  else if starts_with "/auctions/" e
          && negb (String.eqb e "/auctions/recent")
          && negb (String.eqb e "/auctions/summary") then
    missing ["id"; "poolId"; "status"; "startTime"; "endTime"; "winner";
             "winningBid"; "totalBids"; "participants"]
            "auction details response" data
  else if starts_with "/pools/" e && ends_with "/metrics" e then
    missing ["poolId"; "totalVolume24h"; "fees24h"; "lvrDetected";
             "auctionsTriggered"; "mevRecovered"; "lpRewardsDistributed"]
            "pool metrics response" data
  else if String.eqb e "/auctions" && String.eqb (method r) "POST" then
    missing ["id"; "message"] "auction creation response" data
  else Some [].

Definition validation_of (r : TestResult) (found : list string) : Validation :=
  {| v_endpoint := endpoint r;
     v_method := method r;
     valid_schema := match found with
                     | [] => true
                     | _ :: _ => false
                     end;
     issues := found |}.

(** [validate_response_schema]: the results that failed are passed over. *)
Fixpoint validate_response_schema (results : list TestResult)
  : option (list Validation) :=
  match results with
  | [] => Some []
  | r :: rest =>
      if success r then
        match schema_issues r with
        | None => None
        | Some found =>
            match validate_response_schema rest with
            | None => None
            | Some vs => Some (validation_of r found :: vs)
            end
        end
      else validate_response_schema rest
  end.

Definition count {A} (f : A -> bool) (l : list A) : nat :=
  List.length (filter f l).

(** The exit code of [main] for the results of [run_tests]. *)
Definition exit_code (results : list TestResult) : option Z :=
  match validate_response_schema results with
  | None => None
  | Some schema_validations =>
      let total_tests := List.length results in
      let passed_tests := count success results in
      let valid_schemas := count valid_schema schema_validations in
      Some (if Nat.eqb passed_tests total_tests
               && Nat.eqb valid_schemas (List.length schema_validations)
            then 0 else 1)
  end.

(** [auction_data] of [run_tests], for the identifiers and the time the run
    draws. *)
Definition auction_data (pool winner_address now : string) : json :=
  JDict [("poolId", JStr pool);
         ("winner", JStr winner_address);
         ("winningBid", JStr "1.234");
         ("totalBids", JInt 5);
         ("timestamp", JStr now);
         ("blockNumber", JInt 18550000)].

(** A result that succeeded and in which [validate_response_schema] finds
    no issue. *)
Definition passed (r : TestResult) : Prop :=
  success r = true /\ schema_issues r = Some [].

(** What [test_endpoint] makes of a reply: the test succeeds on a status
    code from 200 to 299. *)
Definition received (test_method test_path : string)
           (reply : option ((Z * json) * Server))
  : option (TestResult * Server) :=
  match reply with
  | None => None
  | Some ((code, body), s') =>
      let ok := (200 <=? code) && (code <? 300) in
      Some ({| endpoint := test_path; method := test_method;
               status_code := Some code;
               response_data := Some body;
               success := ok;
               error_message :=
                 if ok then None
                 else Some ("Unexpected status code: " ++ Fmt.dec code) |},
            s')
  end.

Section Routes.

(** The body FastAPI sends with an error code. *)
Variable error_detail : Z -> json.

Definition http {A} (enc : A -> json) (r : Response A) : Z * json :=
  match r with
  | Success c b => (c, enc b)
  | Failure c => (c, error_detail c)
  end.

(** The answer of a handler of the [World]. *)
Definition answer {A} (h : M (Response A)) (enc : A -> json) (s : Server)
  : option ((Z * json) * Server) :=
  let '(r, s') := lift h s in Some (http enc r, s').

(** The routes of [api_router], under its prefix.  The paths without a
    parameter are tried before [/auctions/{auction_id}] and
    [/pools/{pool_id}/metrics], as their order of registration has it.
    [None] is a request the routes do not answer with a handler (another
    method, another path) or a body whose reading is left out. *)
Definition serve (http_method path : string) (data : option json) (s : Server)
  : option ((Z * json) * Server) :=
  let get {A} (h : M (Response A)) (enc : A -> json) :=
    if String.eqb http_method "GET" then answer h enc s else None in
  if String.eqb path "/" then get root enc_root
  else if String.eqb path "/status" then
    if String.eqb http_method "POST" then
      match data with
      | None => Some (http enc_status_check ValidationError, s)
      | Some j =>
          match status_body_of_json j with
          | None => None
          | Some b =>
              let '(r, s') := post_status b s in
              Some (http enc_status_check r, s')
          end
      end
    else if String.eqb http_method "GET" then
      let '(r, s') := get_status_checks s in
      Some (http (enc_list enc_status_check) r, s')
    else None
  else if String.eqb path "/auctions/summary" then
    get get_auction_summary enc_summary
  else if String.eqb path "/auctions/recent" then
    get get_recent_auctions (enc_list enc_auction)
  else if String.eqb path "/pools/performance" then
    get get_pool_performance (enc_list enc_pool)
  else if String.eqb path "/operators" then
    get get_avs_operators (enc_list enc_operator)
  else if String.eqb path "/auctions" then
    if String.eqb http_method "POST" then
      match data with
      | None => Some (http enc_created ValidationError, s)
      | Some j =>
          match auction_body_of_json j with
          | None => None
          | Some b => answer (post_auctions b) enc_created s
          end
      end
    else None
  else if String.eqb path "/health" then get health_check enc_health
  else
    match strip_prefix "/auctions/" path with
    | Some auction_id =>
        if path_segment auction_id
        then get (get_auction_details auction_id) enc_details
        else None
    | None =>
        match strip_prefix "/pools/" path with
        | Some rest =>
            match strip_suffix "/metrics" rest with
            | Some pool =>
                if path_segment pool
                then get (get_pool_metrics pool) enc_metrics
                else None
            | None => None
            end
        | None => None
        end
    end.

(** [test_endpoint], the server of this file answering at [API_BASE_URL].
    The endpoint is taken for the path of the URL, which it is when it has no
    query or fragment mark, as with the identifiers the suite draws. *)
Definition test_endpoint (test_method test_path : string)
           (data : option json) (s : Server)
  : option (TestResult * Server) :=
  if String.eqb (upper test_method) "GET" then
    received test_method test_path (serve "GET" test_path None s)
  else if String.eqb (upper test_method) "POST" then
    received test_method test_path (serve "POST" test_path data s)
  else
    Some ({| endpoint := test_path; method := test_method;
             status_code := None; response_data := None;
             success := false;
             error_message :=
               Some ("Unsupported method: " ++ test_method) |}, s).

(** A request that passes on every server: it is answered, with success,
    and no issue is found in the answer. *)
Definition passes (m p : string) (d : option json) : Prop :=
  forall s, exists r s',
    test_endpoint m p d s = Some (r, s') /\ passed r.

(** A sequence of requests, each on the server the one before left. *)
Fixpoint requests (rs : list (string * string * option json)) (s : Server)
  : option (list TestResult * Server) :=
  match rs with
  | [] => Some ([], s)
  | (m, p, d) :: rest =>
      match test_endpoint m p d s with
      | None => None
      | Some (r, s') =>
          match requests rest s' with
          | None => None
          | Some (results, s'') => Some (r :: results, s'')
          end
      end
  end.

(** [run_tests], for the identifiers and the time the run draws. *)
Definition run_tests (auction_id pool_id : string)
           (data_pool data_winner now : string)
  : Server -> option (list TestResult * Server) :=
  requests [("GET", "/", None);
            ("GET", "/health", None);
            ("GET", "/auctions/summary", None);
            ("GET", "/auctions/recent", None);
            ("GET", "/pools/performance", None);
            ("GET", "/operators", None);
            ("GET", "/auctions/" ++ auction_id, None);
            ("GET", "/pools/" ++ pool_id ++ "/metrics", None);
            ("POST", "/auctions",
             Some (auction_data data_pool data_winner now))].

(** [main]: its exit code. *)
Definition main (auction_id pool_id : string)
           (data_pool data_winner now : string) (s : Server)
  : option Z :=
  match run_tests auction_id pool_id data_pool data_winner now s with
  | None => None
  | Some (results, _) => exit_code results
  end.

End Routes.

(** The identifiers [run_tests] draws are made of letters, digits and
    hyphens. *)
Definition plain_char (c : ascii) : bool :=
  let n := N_of_ascii c in
  ((48 <=? n) && (n <=? 57) || (65 <=? n) && (n <=? 90)
   || (97 <=? n) && (n <=? 122) || (n =? 45))%N.

Fixpoint all_plain (s : string) : bool :=
  match s with
  | EmptyString => true
  | String c s' => plain_char c && all_plain s'
  end.

Definition plain_segment (s : string) : bool :=
  negb (String.eqb s "") && all_plain s.

(** ** Sample requests *)

Definition no_detail (code : Z) : json := JDict [("detail", JNull)].

(** A result of an unsupported method and a result of [GET /]. *)
Definition sample_results : list TestResult :=
  [{| endpoint := "/"; method := "PUT";
      status_code := None; response_data := None;
      success := false;
      error_message := Some "Unsupported method: PUT" |};
   {| endpoint := "/"; method := "GET";
      status_code := Some 200;
      response_data := Some (enc_root "EigenLVR API");
      success := true;
      error_message := None |}].

(** The validation of the second of them. *)
Definition sample_validations : list Validation :=
  [{| v_endpoint := "/"; v_method := "GET";
      valid_schema := true; issues := [] |}].

(** A posted object without most of the required fields. *)
Definition incomplete_data : json := JDict [("poolId", JStr "0x01")].

(** ** Examples *)

Example hex_ex : Fmt.hex 305419896 = "12345678". Proof. reflexivity. Qed.
Example hex_ex2 : Fmt.hex 999999999 = "3b9ac9ff". Proof. reflexivity. Qed.
Example commas_ex : Fmt.commas 1002003 = "1,002,003". Proof. reflexivity. Qed.
Example commas_ex2 : Fmt.commas 50000000 = "50,000,000".
Proof. reflexivity. Qed.
Example float_str_ex : Fmt.float_str 2 600 = "6.0". Proof. reflexivity. Qed.
Example float_str_ex1 : Fmt.float_str 2 510 = "5.1". Proof. reflexivity. Qed.
Example float_str_ex2 : Fmt.float_str 2 12340 = "123.4".
Proof. reflexivity. Qed.
Example float_str_ex3 : Fmt.float_str 3 100 = "0.1". Proof. reflexivity. Qed.
Example decimal_value_ex : Fmt.decimal_value 2 "123.4" = Some 12340.
Proof. reflexivity. Qed.
Example decimal_value_ex2 : Fmt.decimal_value 2 "6.00" = Some 600.
Proof. reflexivity. Qed.

(** [0.85] is [0x1.b333333333333p-1]. *)
Example double_085 :
  Float.of_decimal 2 85
  = {| Float.mant := 7656119366529843; Float.expo := -53 |}.
Proof. reflexivity. Qed.

(** [round(50.1 * 0.85, 2) = 42.59] and [round(50.3 * 0.85, 2) = 42.75]:
    both products sit on a half cent in decimal and fall to either side in
    binary. *)
Example lp_share_5010 : lp_share 5010 = 4259. Proof. reflexivity. Qed.
Example lp_share_5030 : lp_share 5030 = 4275. Proof. reflexivity. Qed.
Example lp_share_600 : lp_share 600 = 510. Proof. reflexivity. Qed.

Example strftime_ex :
  Clock.strftime 1700000000123456 = "2023-11-14 22:13:20".
Proof. reflexivity. Qed.
Example isoformat_ex :
  Clock.isoformat 1700000000123456 = "2023-11-14T22:13:20.123456".
Proof. reflexivity. Qed.
Example isoformat_leap :
  Clock.isoformat 951782400000000 = "2000-02-29T00:00:00".
Proof. reflexivity. Qed.

Example sorted_desc_ex :
  sorted_desc (fun s => s) ["b"; "a"; "c"; "b"] = ["c"; "b"; "b"; "a"].
Proof. reflexivity. Qed.

(** Equal keys keep their order. *)
Example sorted_desc_stable :
  sorted_desc fst [("a", 1); ("b", 2); ("a", 3); ("b", 4)]
  = [("b", 2); ("b", 4); ("a", 1); ("a", 3)].
Proof. reflexivity. Qed.

Example summary_sample :
  fst (get_auction_summary (sample_world empty_db))
  = Success 200 {| activeAuctions := 0;
                   totalMEVRecovered := "50.07";
                   totalLPRewards := "42.56";
                   avsOperatorCount := 14 |}.
Proof. vm_compute. reflexivity. Qed.

(** ** Running the monad *)

Lemma run_bind {A B} (m : M A) (k : A -> M B) (w : World) :
  bind m k w = k (fst (m w)) (snd (m w)).
Proof. unfold bind. destruct (m w); reflexivity. Qed.

Lemma run_replicateM_S {A} (n : nat) (m : M A) (w : World) :
  replicateM (S n) m w
  = (fst (m w) :: fst (replicateM n m (snd (m w))),
     snd (replicateM n m (snd (m w)))).
Proof.
  simpl. rewrite run_bind, run_bind. reflexivity.
Qed.

Lemma run_forM_cons {A B} (x : A) (xs : list A) (f : A -> M B) (w : World) :
  forM (x :: xs) f w
  = (fst (f x w) :: fst (forM xs f (snd (f x w))),
     snd (forM xs f (snd (f x w)))).
Proof.
  simpl. rewrite run_bind, run_bind. reflexivity.
Qed.

Lemma replicateM_length {A} (m : M A) (n : nat) (w : World) :
  List.length (fst (replicateM n m w)) = n.
Proof.
  revert w. induction n as [|n IH]; intro w.
  - reflexivity.
  - rewrite run_replicateM_S. simpl. now rewrite IH.
Qed.

(** A property of every run of [m], under an invariant of the world that
    [m] keeps, holds of each element that [replicateM] collects. *)
Lemma replicateM_Forall {A} (I : World -> Prop) (P : A -> Prop) (m : M A) :
  (forall w, I w -> P (fst (m w)) /\ I (snd (m w))) ->
  forall n w, I w ->
    Forall P (fst (replicateM n m w)) /\ I (snd (replicateM n m w)).
Proof.
  intros Hm n. induction n as [|n IH]; intros w Hw.
  - split; [constructor | exact Hw].
  - rewrite run_replicateM_S. simpl.
    destruct (Hm w Hw) as [HP HI].
    destruct (IH _ HI) as [HF HI'].
    split; [constructor; assumption | assumption].
Qed.

(** ** Reading without the database *)

Ltac by_sources :=
  unfold same_sources in *; simpl in *; intuition congruence.

Section Read_only.

Lemma read_only_ret {A} (a : A) : read_only (ret a).
Proof. intro w. reflexivity. Qed.

Lemma read_only_bind {A B} (m : M A) (k : A -> M B) :
  read_only m -> (forall a, read_only (k a)) -> read_only (bind m k).
Proof.
  intros Hm Hk w. rewrite run_bind, Hk. apply Hm.
Qed.

Lemma read_only_draw : read_only draw.
Proof. intro w. reflexivity. Qed.

Lemma read_only_utcnow : read_only datetime_utcnow.
Proof. intro w. reflexivity. Qed.

Lemma read_only_now : read_only datetime_now.
Proof. intro w. reflexivity. Qed.

Lemma read_only_uuid4 : read_only uuid4.
Proof. intro w. reflexivity. Qed.

Lemma read_only_replicateM {A} (m : M A) (n : nat) :
  read_only m -> read_only (replicateM n m).
Proof.
  intros Hm. induction n as [|n IH]; intro w.
  - reflexivity.
  - rewrite run_replicateM_S. simpl. rewrite IH. apply Hm.
Qed.

Lemma read_only_forM {A B} (xs : list A) (f : A -> M B) :
  (forall x, read_only (f x)) -> read_only (forM xs f).
Proof.
  intros Hf. induction xs as [|x xs IH]; intro w.
  - reflexivity.
  - rewrite run_forM_cons. simpl. rewrite IH. apply Hf.
Qed.

End Read_only.

Section Oblivious.

Lemma oblivious_ret {A} (a : A) : oblivious (ret a).
Proof. intros w1 w2 H. split; [reflexivity | exact H]. Qed.

Lemma oblivious_bind {A B} (m : M A) (k : A -> M B) :
  oblivious m -> (forall a, oblivious (k a)) -> oblivious (bind m k).
Proof.
  intros Hm Hk w1 w2 H. rewrite !run_bind.
  destruct (Hm w1 w2 H) as [Ha Hw]. rewrite Ha.
  apply Hk, Hw.
Qed.

Lemma oblivious_draw : oblivious draw.
Proof. intros w1 w2 H. split; by_sources. Qed.

Lemma oblivious_utcnow : oblivious datetime_utcnow.
Proof. intros w1 w2 H. split; by_sources. Qed.

Lemma oblivious_now : oblivious datetime_now.
Proof.
  intros w1 w2 H. unfold datetime_now. rewrite !run_bind.
  split; by_sources.
Qed.

Lemma oblivious_uuid4 : oblivious uuid4.
Proof. intros w1 w2 H. split; by_sources. Qed.

Lemma oblivious_replicateM {A} (m : M A) (n : nat) :
  oblivious m -> oblivious (replicateM n m).
Proof.
  intros Hm. induction n as [|n IH]; intros w1 w2 H.
  - split; [reflexivity | exact H].
  - rewrite !run_replicateM_S. simpl.
    destruct (Hm w1 w2 H) as [Ha Hw].
    destruct (IH _ _ Hw) as [Hl Hw'].
    rewrite Ha, Hl. split; [reflexivity | exact Hw'].
Qed.

Lemma oblivious_forM {A B} (xs : list A) (f : A -> M B) :
  (forall x, oblivious (f x)) -> oblivious (forM xs f).
Proof.
  intros Hf. induction xs as [|x xs IH]; intros w1 w2 H.
  - split; [reflexivity | exact H].
  - rewrite !run_forM_cons. simpl.
    destruct (Hf x w1 w2 H) as [Ha Hw].
    destruct (IH _ _ Hw) as [Hl Hw'].
    rewrite Ha, Hl. split; [reflexivity | exact Hw'].
Qed.

End Oblivious.

(** Both properties of a handler built from the primitives follow its
    syntax. *)
Ltac by_syntax :=
  repeat (intros; cbv zeta;
          lazymatch goal with
          | |- read_only (ret _) => apply read_only_ret
          | |- read_only (bind _ _) => apply read_only_bind
          | |- read_only draw => apply read_only_draw
          | |- read_only datetime_utcnow => apply read_only_utcnow
          | |- read_only datetime_now => apply read_only_now
          | |- read_only uuid4 => apply read_only_uuid4
          | |- read_only (replicateM _ _) => apply read_only_replicateM
          | |- read_only (forM _ _) => apply read_only_forM
          | |- oblivious (ret _) => apply oblivious_ret
          | |- oblivious (bind _ _) => apply oblivious_bind
          | |- oblivious draw => apply oblivious_draw
          | |- oblivious datetime_utcnow => apply oblivious_utcnow
          | |- oblivious datetime_now => apply oblivious_now
          | |- oblivious uuid4 => apply oblivious_uuid4
          | |- oblivious (replicateM _ _) => apply oblivious_replicateM
          | |- oblivious (forM _ _) => apply oblivious_forM
          | |- _ =>
              progress unfold randint, round_uniform, choice,
                random_address, mock_auction, mock_pool, mock_operator,
                mock_participant
          end).

Lemma summary_read_only : read_only get_auction_summary.
Proof. unfold get_auction_summary. by_syntax. Qed.

Lemma summary_oblivious : oblivious get_auction_summary.
Proof. unfold get_auction_summary. by_syntax. Qed.

Lemma recent_read_only : read_only get_recent_auctions.
Proof. unfold get_recent_auctions. by_syntax. Qed.

Lemma recent_oblivious : oblivious get_recent_auctions.
Proof. unfold get_recent_auctions. by_syntax. Qed.

Lemma pools_read_only : read_only get_pool_performance.
Proof. unfold get_pool_performance. by_syntax. Qed.

Lemma pools_oblivious : oblivious get_pool_performance.
Proof. unfold get_pool_performance. by_syntax. Qed.

Lemma operators_read_only : read_only get_avs_operators.
Proof. unfold get_avs_operators. by_syntax. Qed.

Lemma operators_oblivious : oblivious get_avs_operators.
Proof. unfold get_avs_operators. by_syntax. Qed.


Lemma details_oblivious (i : string) : oblivious (get_auction_details i).
Proof. unfold get_auction_details. by_syntax. Qed.

Lemma health_read_only : read_only health_check.
Proof. unfold health_check. by_syntax. Qed.

Lemma health_oblivious : oblivious health_check.
Proof. unfold health_check. by_syntax. Qed.

Lemma same_sources_with_db (d : Db) (w : World) :
  same_sources (with_db d w) w.
Proof. by_sources. Qed.

(** ** Sorting *)

Section Sorting.

Context {A : Type} (key : A -> string).

Lemma ltb_leb (s t : string) : String.ltb s t = true -> String.leb s t = true.
Proof.
  unfold String.ltb, String.leb. destruct (String.compare s t); congruence.
Qed.

Lemma not_ltb_leb (s t : string) :
  String.ltb s t = false -> String.leb t s = true.
Proof.
  unfold String.ltb, String.leb. rewrite (String.compare_antisym t s).
  destruct (String.compare s t); simpl; congruence.
Qed.

Lemma insert_desc_length (x : A) (l : list A) :
  List.length (insert_desc key x l) = S (List.length l).
Proof.
  induction l as [|y l IH]; simpl.
  - reflexivity.
  - destruct (String.ltb (key x) (key y)); simpl;
      [now rewrite IH | reflexivity].
Qed.

Lemma sorted_desc_length (l : list A) :
  List.length (sorted_desc key l) = List.length l.
Proof.
  induction l as [|x l IH]; simpl.
  - reflexivity.
  - fold (sorted_desc key l). now rewrite insert_desc_length, IH.
Qed.

Lemma insert_desc_HdRel (x y : A) (l : list A) :
  descending key y x ->
  HdRel (descending key) y l ->
  HdRel (descending key) y (insert_desc key x l).
Proof.
  intros Hyx Hl. destruct l as [|z l]; simpl.
  - constructor. exact Hyx.
  - destruct (String.ltb (key x) (key z)).
    + constructor. inversion Hl; assumption.
    + constructor. exact Hyx.
Qed.

Lemma insert_desc_Sorted (x : A) (l : list A) :
  Sorted (descending key) l -> Sorted (descending key) (insert_desc key x l).
Proof.
  induction l as [|y l IH]; intro Hs; simpl.
  - repeat constructor.
  - inversion Hs as [|? ? Hl Hy]; subst.
    destruct (String.ltb (key x) (key y)) eqn:E.
    + constructor.
      * apply IH, Hl.
      * apply insert_desc_HdRel; [apply ltb_leb, E | exact Hy].
    + constructor; [exact Hs | constructor; apply not_ltb_leb, E].
Qed.

Lemma sorted_desc_Sorted (l : list A) :
  Sorted (descending key) (sorted_desc key l).
Proof.
  induction l as [|x l IH]; simpl.
  - constructor.
  - apply insert_desc_Sorted, IH.
Qed.

(** Sorting keeps the elements. *)
Lemma insert_desc_Permutation (x : A) (l : list A) :
  Permutation (x :: l) (insert_desc key x l).
Proof.
  induction l as [|y l IH]; simpl.
  - apply Permutation_refl.
  - destruct (String.ltb (key x) (key y)).
    + eapply perm_trans; [apply perm_swap | apply perm_skip, IH].
    + apply Permutation_refl.
Qed.

Lemma sorted_desc_Permutation (l : list A) :
  Permutation l (sorted_desc key l).
Proof.
  induction l as [|x l IH]; simpl.
  - constructor.
  - eapply perm_trans; [apply perm_skip, IH | apply insert_desc_Permutation].
Qed.

End Sorting.

(** ** Numbers *)

Lemma range_forallb (P : Z -> bool) (lo : Z) (n : nat) :
  forallb P (range lo n) = true ->
  forall c, lo <= c < lo + Z.of_nat n -> P c = true.
Proof.
  revert lo. induction n as [|n IH]; intros lo H c Hc.
  - simpl in Hc. lia.
  - simpl in H. apply andb_true_iff in H. destruct H as [Hlo Hrest].
    destruct (Z.eq_dec c lo) as [->|Hne]; [exact Hlo|].
    apply (IH (lo + 1) Hrest). lia.
Qed.

Lemma randint_range (a b : Z) (w : World) :
  a <= b -> a <= fst (randint a b w) <= b.
Proof.
  intro H. unfold randint. rewrite run_bind. simpl.
  pose proof (Z.mod_pos_bound (entropy w (rand_pos w)) (b - a + 1)). lia.
Qed.

(** Python's [str] of a float of two decimals between 42.5 and 200 reads
    back as that value. *)
Lemma float_str_value (c : Z) :
  4250 <= c <= 20000 -> Fmt.decimal_value 2 (Fmt.float_str 2 c) = Some c.
Proof.
  intro H.
  assert (T : forallb
                (fun c => match Fmt.decimal_value 2 (Fmt.float_str 2 c) with
                          | Some v => v =? c
                          | None => false
                          end) (range 4250 (Z.to_nat 15751)) = true)
    by (vm_compute; reflexivity).
  pose proof (range_forallb _ _ _ T c ltac:(lia)) as Hc. cbv beta in Hc.
  destruct (Fmt.decimal_value 2 (Fmt.float_str 2 c)); [|discriminate].
  apply Z.eqb_eq in Hc. now subst.
Qed.

(** [round(total_mev * 0.85, 2)] is within half a cent of 85% of
    [total_mev], over the values [total_mev] takes. *)
Lemma lp_share_fraction (c : Z) :
  5000 <= c <= 20000 ->
  85 * c - 50 <= 100 * lp_share c <= 85 * c + 50.
Proof.
  intro H.
  assert (T : forallb (fun c => let r := lp_share c in
                                (85 * c - 50 <=? 100 * r)
                                && (100 * r <=? 85 * c + 50))
                      (range 5000 (Z.to_nat 15001)) = true)
    by (vm_compute; reflexivity).
  pose proof (range_forallb _ _ _ T c ltac:(lia)) as Hc.
  cbv beta zeta in Hc.
  apply andb_true_iff in Hc. destruct Hc as [H1 H2].
  apply Z.leb_le in H1, H2. lia.
Qed.

(** ** What the handlers return *)

(** The summary is placeholder data within fixed bounds. *)
Lemma summary_shape (w : World) :
  exists active mev count,
    fst (get_auction_summary w)
    = Success 200 {| activeAuctions := active;
                     totalMEVRecovered := Fmt.float_str 2 mev;
                     totalLPRewards := Fmt.float_str 2 (lp_share mev);
                     avsOperatorCount := count |}
    /\ 0 <= active <= 5 /\ 5000 <= mev <= 20000 /\ 8 <= count <= 15.
Proof.
  unfold get_auction_summary, round_uniform.
  rewrite run_bind. set (w1 := snd (datetime_now w)).
  rewrite run_bind. set (w2 := snd (randint 0 5 w1)).
  rewrite run_bind. cbv zeta. set (w3 := snd (randint 5000 20000 w2)).
  rewrite run_bind.
  exists (fst (randint 0 5 w1)), (fst (randint 5000 20000 w2)),
    (fst (randint 8 15 w3)).
  split; [reflexivity|].
  split; [|split]; apply randint_range; lia.
Qed.

Lemma recent_shape (w : World) :
  fst (get_recent_auctions w)
  = Success 200 (sorted_desc timestamp (fst (replicateM 10 mock_auction w))).
Proof.
  unfold get_recent_auctions. rewrite run_bind. reflexivity.
Qed.

(** One step of a handler: name the result and the world after it. *)
Ltac run_step :=
  lazymatch goal with
  | |- context [bind ?m ?k ?w] =>
      rewrite (run_bind m k w);
      let a := fresh "a" in
      let w' := fresh "w" in
      set (w' := snd (m w)); set (a := fst (m w)); cbv beta zeta
  end.

Ltac run := repeat run_step.


Lemma randint_same_clock (a b : Z) (w : World) :
  same_clock w (snd (randint a b w)).
Proof. split; reflexivity. Qed.

Lemma random_address_same_clock (w : World) :
  same_clock w (snd (random_address w)).
Proof. split; reflexivity. Qed.

Lemma datetime_now_same_clock (w : World) :
  same_clock w (snd (datetime_now w)).
Proof. split; reflexivity. Qed.

Lemma datetime_now_value (w : World) :
  fst (datetime_now w) = clock w (clock_pos w) + tz_offset w.
Proof. reflexivity. Qed.

Lemma same_clock_trans (w1 w2 w3 : World) :
  same_clock w1 w2 -> same_clock w2 w3 -> same_clock w1 w3.
Proof. unfold same_clock. intuition congruence. Qed.




(** A body that lacks a required field is refused and nothing is stored. *)
Lemma post_auctions_incomplete (b : AuctionBody) (w : World) :
  body_poolId b = None \/ body_winner b = None \/ body_winningBid b = None
  \/ body_totalBids b = None \/ body_timestamp b = None
  \/ body_blockNumber b = None ->
  fst (post_auctions b w) = ValidationError
  /\ db (snd (post_auctions b w)) = db w.
Proof.
  intros H. unfold post_auctions, validate_AuctionRecord.
  destruct (body_id b), (body_poolId b), (body_winner b), (body_winningBid b),
    (body_totalBids b), (body_timestamp b), (body_blockNumber b);
    try (split; reflexivity);
    exfalso; intuition discriminate.
Qed.

(** ** The summary operation *)

(** C1, as the source has it: on a store without auction and operator
    records the summary operation returns, and what it returns is not the
    zero summary but placeholder data: [activeAuctions] from 0 to 5,
    [avsOperatorCount] from 8 to 15, [totalMEVRecovered] the print of a value
    from 50.0 to 200.0 and [totalLPRewards] the print of 0.85 times that
    value, rounded to two places. *)
Theorem summary_of_empty_store (w : World) :
  db w = empty_db ->
  exists active mev count,
    fst (get_auction_summary w)
    = Success 200 {| activeAuctions := active;
                     totalMEVRecovered := Fmt.float_str 2 mev;
                     totalLPRewards := Fmt.float_str 2 (lp_share mev);
                     avsOperatorCount := count |}
    /\ 0 <= active <= 5 /\ 5000 <= mev <= 20000 /\ 8 <= count <= 15
    /\ db (snd (get_auction_summary w)) = empty_db.
Proof.
  intro Hdb.
  destruct (summary_shape w) as (active & mev & count & E & Ha & Hm & Hc).
  exists active, mev, count.
  rewrite summary_read_only. auto.
Qed.

Lemma summary_of_empty_store_witness :
  db (sample_world empty_db) = empty_db
  /\ exists active mev count,
      fst (get_auction_summary (sample_world empty_db))
      = Success 200 {| activeAuctions := active;
                       totalMEVRecovered := Fmt.float_str 2 mev;
                       totalLPRewards := Fmt.float_str 2 (lp_share mev);
                       avsOperatorCount := count |}
      /\ 0 <= active <= 5 /\ 5000 <= mev <= 20000 /\ 8 <= count <= 15
      /\ db (snd (get_auction_summary (sample_world empty_db))) = empty_db.
Proof.
  split; [reflexivity|].
  apply (summary_of_empty_store (sample_world empty_db)). reflexivity.
Defined.

(** C1, as stated, fails: on the empty store, with a generator whose raw
    draws are 0, 7, 14, the summary counts 14 operators and totals 50.07
    and 42.56. *)
Lemma empty_store_summary_not_zero :
  db (sample_world empty_db) = empty_db
  /\ fst (get_auction_summary (sample_world empty_db))
     = Success 200 {| activeAuctions := 0;
                      totalMEVRecovered := "50.07";
                      totalLPRewards := "42.56";
                      avsOperatorCount := 14 |}
  /\ fst (get_auction_summary (sample_world empty_db))
     <> Success 200 {| activeAuctions := 0;
                       totalMEVRecovered := "0";
                       totalLPRewards := "0";
                       avsOperatorCount := 0 |}.
Proof.
  split; [reflexivity|].
  split; [vm_compute; reflexivity|].
  vm_compute. discriminate.
Qed.

(** C3: in every summary the operation produces, whatever the store holds,
    both totals are decimal numbers, [totalLPRewards] is at most
    [totalMEVRecovered], and it is 0.85 of it to the nearest cent. *)
Theorem summary_rewards_le_recovered (w : World) :
  exists s mev rewards,
    fst (get_auction_summary w) = Success 200 s
    /\ Fmt.decimal_value 2 (totalMEVRecovered s) = Some mev
    /\ Fmt.decimal_value 2 (totalLPRewards s) = Some rewards
    /\ rewards <= mev
    /\ 85 * mev - 50 <= 100 * rewards <= 85 * mev + 50.
Proof.
  destruct (summary_shape w) as (active & mev & count & E & _ & Hm & _).
  pose proof (lp_share_fraction mev Hm) as Hf.
  eexists. exists mev, (lp_share mev).
  split; [exact E|]. cbn [totalMEVRecovered totalLPRewards].
  split; [apply float_str_value; lia|].
  split; [apply float_str_value; lia|].
  split; lia.
Qed.

(** C4, as the source has it: with the three completed auctions won at 1.0,
    2.0 and 3.0 and the two active operators in the store, the summary is the
    one any other store gives with the same generator: [activeAuctions] from
    0 to 5, [avsOperatorCount] from 8 to 15, [totalMEVRecovered] at least
    50. *)
Theorem summary_of_scenario (w : World) :
  db w = scenario_db ->
  exists s mev,
    fst (get_auction_summary w) = Success 200 s
    /\ fst (get_auction_summary (with_db empty_db w)) = Success 200 s
    /\ 0 <= activeAuctions s <= 5
    /\ 8 <= avsOperatorCount s <= 15
    /\ Fmt.decimal_value 2 (totalMEVRecovered s) = Some mev
    /\ 5000 <= mev <= 20000.
Proof.
  intros _.
  destruct (summary_shape w) as (active & mev & count & E & Ha & Hm & Hc).
  eexists. exists mev. split; [exact E|].
  split.
  - rewrite <- E. apply summary_oblivious, same_sources_with_db.
  - cbn [activeAuctions avsOperatorCount totalMEVRecovered].
    repeat split; try lia. apply float_str_value. lia.
Qed.

Lemma summary_of_scenario_witness :
  db (sample_world scenario_db) = scenario_db
  /\ exists s mev,
      fst (get_auction_summary (sample_world scenario_db)) = Success 200 s
      /\ fst (get_auction_summary (with_db empty_db (sample_world scenario_db)))
         = Success 200 s
      /\ 0 <= activeAuctions s <= 5
      /\ 8 <= avsOperatorCount s <= 15
      /\ Fmt.decimal_value 2 (totalMEVRecovered s) = Some mev
      /\ 5000 <= mev <= 20000.
Proof.
  split; [reflexivity|].
  apply (summary_of_scenario (sample_world scenario_db)). reflexivity.
Defined.

(** C4, as stated, fails: on the scenario's store the same generator gives
    the same summary as on the empty store, not 6.00, 5.10 and 2. *)
Lemma scenario_summary_differs :
  map (fun d => winningBid (fields d)) (auctions scenario_db)
  = ["1.0"; "2.0"; "3.0"]
  /\ map (fun d => status (fields d)) (auctions scenario_db)
     = ["completed"; "completed"; "completed"]
  /\ map op_status (operators scenario_db) = ["active"; "active"]
  /\ fst (get_auction_summary (sample_world scenario_db))
     = Success 200 {| activeAuctions := 0;
                      totalMEVRecovered := "50.07";
                      totalLPRewards := "42.56";
                      avsOperatorCount := 14 |}
  /\ fst (get_auction_summary (sample_world scenario_db))
     <> Success 200 {| activeAuctions := 0;
                       totalMEVRecovered := "6.00";
                       totalLPRewards := "5.10";
                       avsOperatorCount := 2 |}.
Proof.
  split; [reflexivity|].
  split; [reflexivity|].
  split; [reflexivity|].
  split; [vm_compute; reflexivity|].
  vm_compute. discriminate.
Qed.

(** ** The detail operation *)





(** ** The recent-auctions operation *)

(** C5: the recent-auctions operation returns at most ten records, and no
    record is followed by one with a later timestamp. *)
Theorem recent_at_most_ten_descending (w : World) :
  exists l,
    fst (get_recent_auctions w) = Success 200 l
    /\ (List.length l <= 10)%nat
    /\ Sorted timestamp_desc l.
Proof.
  eexists. split; [apply recent_shape|]. split.
  - rewrite sorted_desc_length, replicateM_length. lia.
  - apply sorted_desc_Sorted.
Qed.

(** C10: the recent-auctions operation returns exactly ten records in every
    world; what it returns is the same for every content of the store, and
    the store is left as it was. *)
Theorem recent_exactly_ten (w : World) :
  (exists l,
      fst (get_recent_auctions w) = Success 200 l /\ List.length l = 10%nat)
  /\ (forall d,
         fst (get_recent_auctions (with_db d w)) = fst (get_recent_auctions w))
  /\ db (snd (get_recent_auctions w)) = db w.
Proof.
  split; [|split].
  - eexists. split; [apply recent_shape|].
    now rewrite sorted_desc_length, replicateM_length.
  - intro d. apply recent_oblivious, same_sources_with_db.
  - apply recent_read_only.
Qed.

(** ** The create operation *)




(** ** Reads *)

(** C7, as the source has it: each list or summary read endpoint answers
    from the random generator, the clock and the identifier supply alone.
    Two invocations that find these in the same state return the same
    response, whatever the store holds, and the store is left as it was; an
    unchanged store alone does not make two responses the same. *)
Theorem reads_determined_by_sources (w1 w2 : World) :
  same_sources w1 w2 ->
  (fst (get_auction_summary w1) = fst (get_auction_summary w2)
   /\ fst (get_recent_auctions w1) = fst (get_recent_auctions w2)
   /\ fst (get_pool_performance w1) = fst (get_pool_performance w2)
   /\ fst (get_avs_operators w1) = fst (get_avs_operators w2))
  /\ (db (snd (get_auction_summary w1)) = db w1
      /\ db (snd (get_recent_auctions w1)) = db w1
      /\ db (snd (get_pool_performance w1)) = db w1
      /\ db (snd (get_avs_operators w1)) = db w1).
Proof.
  intro H. split.
  - split; [apply summary_oblivious, H|].
    split; [apply recent_oblivious, H|].
    split; [apply pools_oblivious, H | apply operators_oblivious, H].
  - split; [apply summary_read_only|].
    split; [apply recent_read_only|].
    split; [apply pools_read_only | apply operators_read_only].
Qed.

Lemma reads_determined_by_sources_witness :
  let w1 := sample_world empty_db in
  let w2 := sample_world scenario_db in
  same_sources w1 w2
  /\ (fst (get_auction_summary w1) = fst (get_auction_summary w2)
      /\ fst (get_recent_auctions w1) = fst (get_recent_auctions w2)
      /\ fst (get_pool_performance w1) = fst (get_pool_performance w2)
      /\ fst (get_avs_operators w1) = fst (get_avs_operators w2))
  /\ (db (snd (get_auction_summary w1)) = db w1
      /\ db (snd (get_recent_auctions w1)) = db w1
      /\ db (snd (get_pool_performance w1)) = db w1
      /\ db (snd (get_avs_operators w1)) = db w1).
Proof.
  intros w1 w2.
  assert (H : same_sources w1 w2)
    by (unfold same_sources; repeat split; reflexivity).
  split; [exact H|].
  exact (reads_determined_by_sources w1 w2 H).
Defined.

(** C7, as stated, fails: the second of two consecutive invocations finds
    the store as it was and the generator further on, and each of the four
    endpoints answers differently. *)
Lemma consecutive_reads_differ :
  let w0 := sample_world scenario_db in
  (db (snd (get_auction_summary w0)) = db w0
   /\ fst (get_auction_summary (snd (get_auction_summary w0)))
      <> fst (get_auction_summary w0))
  /\ (db (snd (get_recent_auctions w0)) = db w0
      /\ fst (get_recent_auctions (snd (get_recent_auctions w0)))
         <> fst (get_recent_auctions w0))
  /\ (db (snd (get_pool_performance w0)) = db w0
      /\ fst (get_pool_performance (snd (get_pool_performance w0)))
         <> fst (get_pool_performance w0))
  /\ (db (snd (get_avs_operators w0)) = db w0
      /\ fst (get_avs_operators (snd (get_avs_operators w0)))
         <> fst (get_avs_operators w0)).
Proof.
  cbv zeta.
  split; [split; [apply summary_read_only | vm_compute; discriminate]|].
  split; [split; [apply recent_read_only | vm_compute; discriminate]|].
  split; [split; [apply pools_read_only | vm_compute; discriminate]|].
  split; [apply operators_read_only | vm_compute; discriminate].
Qed.

(** ** Health *)

(** C9: the health operation answers [healthy], with the database
    [connected], the AVS [operational] and the price oracle [active], in
    every world; the answer is the same for every content of the store, and
    the store is left as it was. *)
Theorem health_always_healthy (w : World) :
  (exists h,
      fst (health_check w) = Success 200 h
      /\ h_status h = "healthy"
      /\ services h = {| database := "connected";
                         avs := "operational";
                         price_oracle := "active" |})
  /\ (forall d, fst (health_check (with_db d w)) = fst (health_check w))
  /\ db (snd (health_check w)) = db w.
Proof.
  split; [|split].
  - eexists. split; [reflexivity|]. split; reflexivity.
  - intro d. apply health_oblivious, same_sources_with_db.
  - apply health_read_only.
Qed.

(** ** More on the generated records *)

Lemma forM_Forall2 {A B} (P : A -> B -> Prop) (f : A -> M B) :
  (forall x w, P x (fst (f x w))) ->
  forall xs w, Forall2 P xs (fst (forM xs f w)).
Proof.
  intros Hf xs. induction xs as [|x xs IH]; intro w.
  - constructor.
  - rewrite run_forM_cons. simpl. constructor; [apply Hf | apply IH].
Qed.

Lemma random_address_mock (w : World) : mock_address (fst (random_address w)).
Proof.
  unfold random_address. rewrite run_bind. unfold ret. cbn [fst].
  eexists. split; [apply (randint_range 100000000 999999999); lia|].
  reflexivity.
Qed.

Lemma uuid4_same_clock (w : World) : same_clock w (snd (uuid4 w)).
Proof. split; reflexivity. Qed.

Lemma same_clock_refl (w : World) : same_clock w w.
Proof. split; reflexivity. Qed.

(** The clock of a world reached through the primitives is the clock the
    run began with. *)
Ltac clock_chain :=
  repeat first
    [ assumption
    | apply same_clock_refl
    | match goal with
      | w' := _ |- same_clock _ ?v => constr_eq w' v; subst w'
      end
    | eapply same_clock_trans;
      [| first [ apply randint_same_clock | apply random_address_same_clock
               | apply datetime_now_same_clock | apply uuid4_same_clock ] ] ].

(** A bound on a named draw. *)
Ltac draw_bound :=
  match goal with
  | a := fst (randint ?lo ?hi ?w) |- _ <= ?a' <= _ =>
      constr_eq a a'; subst a; apply (randint_range lo hi w); lia
  end.

Lemma float_str2_value (c : Z) :
  10 <= c <= 20000 -> Fmt.decimal_value 2 (Fmt.float_str 2 c) = Some c.
Proof.
  intro H.
  assert (T : forallb
                (fun c => match Fmt.decimal_value 2 (Fmt.float_str 2 c) with
                          | Some v => v =? c
                          | None => false
                          end) (range 10 (Z.to_nat 19991)) = true)
    by (vm_compute; reflexivity).
  pose proof (range_forallb _ _ _ T c ltac:(lia)) as Hc. cbv beta in Hc.
  destruct (Fmt.decimal_value 2 (Fmt.float_str 2 c)); [|discriminate].
  apply Z.eqb_eq in Hc. now subst.
Qed.

Lemma float_str3_value (c : Z) :
  100 <= c <= 10000 -> Fmt.decimal_value 3 (Fmt.float_str 3 c) = Some c.
Proof.
  intro H.
  assert (T : forallb
                (fun c => match Fmt.decimal_value 3 (Fmt.float_str 3 c) with
                          | Some v => v =? c
                          | None => false
                          end) (range 100 (Z.to_nat 9901)) = true)
    by (vm_compute; reflexivity).
  pose proof (range_forallb _ _ _ T c ltac:(lia)) as Hc. cbv beta in Hc.
  destruct (Fmt.decimal_value 3 (Fmt.float_str 3 c)); [|discriminate].
  apply Z.eqb_eq in Hc. now subst.
Qed.

Lemma mock_pool_spec (name : string) (w : World) :
  pool_name (fst (mock_pool name w)) = name
  /\ pool_in_bounds (fst (mock_pool name w)).
Proof.
  unfold mock_pool, round_uniform. run. unfold ret.
  cbn [fst pool_name]. split; [reflexivity|].
  unfold pool_in_bounds.
  cbn [pool_poolId tvl lvrReduction rewardsDistributed].
  split; [subst a; apply random_address_mock|].
  split; [eexists; split; [|reflexivity]; draw_bound|].
  split; [draw_bound|].
  eexists. split; [|apply float_str2_value].
  - draw_bound.
  - assert (500 <= a2 <= 2500) by draw_bound. lia.
Qed.

(** The pools come one per name, in the order of the names. *)
Lemma pools_shape (w : World) :
  fst (get_pool_performance w)
  = Success 200 (fst (forM pool_names mock_pool w)).
Proof. unfold get_pool_performance. rewrite run_bind. reflexivity. Qed.

(** X1: the pool-performance operation returns one record per name of
    [pool_names], five in all, in the order of the names, and every record is
    within the bounds the handler draws from. *)
Theorem pools_one_per_name (w : World) :
  exists pools,
    fst (get_pool_performance w) = Success 200 pools
    /\ map pool_name pools
       = ["ETH/USDC"; "ETH/USDT"; "WBTC/ETH"; "DAI/USDC"; "LINK/ETH"]
    /\ Forall pool_in_bounds pools.
Proof.
  eexists. split; [apply pools_shape|].
  pose proof (forM_Forall2
                (fun name p => pool_name p = name /\ pool_in_bounds p)
                mock_pool mock_pool_spec pool_names w) as H.
  remember (fst (forM pool_names mock_pool w)) as pools eqn:E. clear E.
  change ["ETH/USDC"; "ETH/USDT"; "WBTC/ETH"; "DAI/USDC"; "LINK/ETH"]
    with pool_names.
  induction H as [|name p names ps [Hn Hb] _ [IHn IHb]].
  - split; constructor.
  - split; [simpl; now rewrite Hn, IHn | constructor; assumption].
Qed.

Lemma choice_In (seq : list string) (w : World) :
  seq <> [] -> In (fst (choice seq w)) seq.
Proof.
  intro Hne. unfold choice. rewrite run_bind. unfold ret. cbn [fst].
  apply nth_In.
  assert (0 < Z.of_nat (List.length seq))
    by (destruct seq; [congruence | simpl; lia]).
  pose proof (Z.mod_pos_bound (fst (draw w)) (Z.of_nat (List.length seq))).
  lia.
Qed.

Lemma mock_operator_spec (w : World) :
  operator_in_bounds (fst (mock_operator w)).
Proof.
  unfold mock_operator, round_uniform. run. unfold ret. cbn [fst].
  unfold operator_in_bounds.
  cbn [address stake op_status tasksCompleted reputation].
  split; [subst a; apply random_address_mock|].
  split; [eexists; split; [|reflexivity]; draw_bound|].
  split.
  - match goal with
    | a := fst (choice ?l ?w') |- _ =>
        pose proof (choice_In l w' ltac:(discriminate)) as Hin; subst a
    end.
    simpl in Hin. intuition.
  - split; draw_bound.
Qed.

(** X2: the operators operation returns twelve operators, each [active] or
    [inactive] and within the bounds the handler draws from: a stake from
    1000 to 10000, 50 to 500 tasks, a reputation from 0.70 to 1.00. *)
Theorem operators_twelve_in_bounds (w : World) :
  exists ops,
    fst (get_avs_operators w) = Success 200 ops
    /\ List.length ops = 12%nat
    /\ Forall operator_in_bounds ops.
Proof.
  unfold get_avs_operators. rewrite run_bind. unfold ret. cbn [fst].
  eexists. split; [reflexivity|]. split.
  - apply replicateM_length.
  - apply (replicateM_Forall (fun _ => True) operator_in_bounds mock_operator);
      [|exact I].
    intros w' _. split; [apply mock_operator_spec | exact I].
Qed.

Lemma mock_auction_spec (w0 w : World) :
  same_clock w0 w ->
  auction_in_bounds w0 (fst (mock_auction w))
  /\ same_clock w0 (snd (mock_auction w)).
Proof.
  intro H0. unfold mock_auction, round_uniform. run. unfold ret.
  cbn [fst snd]. split; [|clock_chain].
  unfold auction_in_bounds.
  cbn [poolId winner winningBid totalBids timestamp status blockNumber].
  split; [subst a; apply random_address_mock|].
  split; [subst a0; apply random_address_mock|].
  split.
  { assert (100 <= a1 <= 5000) by draw_bound.
    exists a1. split; [assumption | apply float_str3_value; lia]. }
  split; [draw_bound|].
  split.
  { assert (Hc : same_clock w0 w4) by clock_chain.
    exists (clock_pos w4), a4. split; [draw_bound|].
    subst a3. rewrite datetime_now_value.
    destruct Hc as [Hc Ht]. now rewrite Hc, Ht. }
  split; [reflexivity | draw_bound].
Qed.

(** X3: every record of the recent-auctions response is a generated one:
    status [completed], 3 to 12 bids, a winning bid from 0.1 to 5.0, a block
    number from 18500000 to 18600000, and a timestamp 5 to 1440 whole minutes
    before a reading of the clock.  The response is the ten generated records
    rearranged. *)
Theorem recent_records_in_bounds (w : World) :
  exists l,
    fst (get_recent_auctions w) = Success 200 l
    /\ Permutation (fst (replicateM 10 mock_auction w)) l
    /\ Forall (auction_in_bounds w) l.
Proof.
  eexists. split; [apply recent_shape|]. split.
  - apply sorted_desc_Permutation.
  - eapply Permutation_Forall; [apply sorted_desc_Permutation|].
    apply (replicateM_Forall (same_clock w) (auction_in_bounds w) mock_auction
             (mock_auction_spec w) 10 w (same_clock_refl w)).
Qed.

(** ** The shape of a generated address *)

Lemma append_length (s t : string) :
  String.length (s ++ t) = (String.length s + String.length t)%nat.
Proof. induction s as [|c s IH]; simpl; [reflexivity | now rewrite IH]. Qed.

Lemma zeros_length (k : nat) : String.length (Fmt.zeros k) = k.
Proof. induction k as [|k IH]; simpl; [reflexivity | now rewrite IH]. Qed.

(** A number of exactly [k] digits prints as [k] characters. *)
Lemma digits_from_length (base : Z) (k : nat) :
  1 < base ->
  forall (fuel : nat) (n : Z) (acc : string),
    (S k <= fuel)%nat ->
    base ^ Z.of_nat k <= n < base ^ Z.of_nat (S k) ->
    String.length (Fmt.digits_from fuel base n acc)
    = (String.length acc + S k)%nat.
Proof.
  intro Hb. induction k as [|k IH]; intros fuel n acc Hf Hn.
  - destruct fuel as [|fuel]; [lia|]. simpl Fmt.digits_from.
    change (base ^ Z.of_nat 0) with 1 in Hn.
    change (Z.of_nat 1) with 1 in Hn. rewrite Z.pow_1_r in Hn.
    rewrite Z.div_small by lia. simpl. lia.
  - destruct fuel as [|fuel]; [lia|]. simpl Fmt.digits_from.
    rewrite !Nat2Z.inj_succ, !Z.pow_succ_r in Hn by lia.
    rewrite Nat2Z.inj_succ in IH.
    assert (Hq : base ^ Z.of_nat k <= n / base < base ^ Z.succ (Z.of_nat k)).
    { rewrite Z.pow_succ_r by lia. split.
      - apply Z.div_le_lower_bound; lia.
      - apply Z.div_lt_upper_bound; lia. }
    assert (0 < base ^ Z.of_nat k) by (apply Z.pow_pos_nonneg; lia).
    destruct (n / base =? 0) eqn:E; [apply Z.eqb_eq in E; lia|].
    rewrite IH; [simpl; lia | lia | exact Hq].
Qed.

Lemma hex_length (n : Z) :
  100000000 <= n <= 999999999 ->
  String.length (Fmt.hex n) = 7%nat \/ String.length (Fmt.hex n) = 8%nat.
Proof.
  intro H. unfold Fmt.hex, Fmt.to_base.
  assert (Hl : 26 <= Z.log2 n)
    by (change 26 with (Z.log2 100000000); apply Z.log2_le_mono; lia).
  destruct (Z_lt_le_dec n (16 ^ 7)) as [Hlt|Hge].
  - left. rewrite (digits_from_length 16 6); [reflexivity | lia | lia |].
    change (Z.of_nat 6) with 6. change (Z.of_nat 7) with 7. lia.
  - right. rewrite (digits_from_length 16 7); [reflexivity | lia | lia |].
    change (Z.of_nat 7) with 7. change (Z.of_nat 8) with 8. lia.
Qed.

(** X4: every address the handlers generate is [0x], the seven or eight
    hexadecimal digits of a number from 100000000 to 999999999, and
    twenty-three zeros: 32 or 33 characters, never the 42 of an account
    address nor the 66 of a pool identifier. *)
Theorem random_address_shape (w : World) :
  exists n,
    100000000 <= n <= 999999999
    /\ fst (random_address w) = "0x" ++ Fmt.hex n ++ Fmt.zeros 23
    /\ (String.length (Fmt.hex n) = 7%nat \/ String.length (Fmt.hex n) = 8%nat)
    /\ (String.length (fst (random_address w)) = 32%nat
        \/ String.length (fst (random_address w)) = 33%nat).
Proof.
  destruct (random_address_mock w) as (n & Hn & E).
  exists n. split; [exact Hn|]. split; [exact E|].
  pose proof (hex_length n Hn) as Hl. split; [exact Hl|].
  rewrite E, !append_length, zeros_length. simpl String.length.
  destruct Hl as [-> | ->]; [left | right]; reflexivity.
Qed.

(** ** More on the detail view and the pool metrics *)

(** X5: the detail view of every identifier has 5 to 15 total bids, a
    winning bid from 1.0 to 5.0, an LVR amount from 2.0 to 10.0, 150000 to
    300000 gas and a block number from 18500000 to 18600000; its start time
    is five minutes before the first reading of the clock and its end time is
    the second reading.  The number of participants, 3 to 8, is drawn apart
    from [totalBids]. *)
Theorem details_fields_in_bounds (auction_id : string) (w : World) :
  exists d,
    fst (get_auction_details auction_id w) = Success 200 d
    /\ mock_address (d_poolId d) /\ mock_address (d_winner d)
    /\ decimal_between 3 1000 5000 (d_winningBid d)
    /\ 5 <= d_totalBids d <= 15
    /\ decimal_between 3 2000 10000 (lvrAmount d)
    /\ 150000 <= gasUsed d <= 300000
    /\ 18500000 <= d_blockNumber d <= 18600000
    /\ startTime d
       = Clock.isoformat (clock w (clock_pos w) + tz_offset w
                          - Clock.minutes 5)
    /\ endTime d
       = Clock.isoformat (clock w (S (clock_pos w)) + tz_offset w).
Proof.
  unfold get_auction_details, round_uniform. run. unfold ret. cbn [fst].
  eexists. split; [reflexivity|].
  cbn [d_poolId d_winner d_winningBid d_totalBids lvrAmount gasUsed
       d_blockNumber startTime endTime].
  split; [subst a; apply random_address_mock|].
  split; [subst a2; apply random_address_mock|].
  split.
  { assert (1000 <= a3 <= 5000) by draw_bound.
    exists a3. split; [assumption | apply float_str3_value; lia]. }
  split; [draw_bound|].
  split.
  { assert (2000 <= a7 <= 10000) by draw_bound.
    exists a7. split; [assumption | apply float_str3_value; lia]. }
  split; [draw_bound|]. split; [draw_bound|].
  split; reflexivity.
Qed.

(** X6: the metrics of every pool identifier echo the identifier and lie
    within the bounds the handler draws from.  The LP rewards, 8.0 to 85.0,
    are drawn apart from the MEV recovered, 10.0 to 100.0; the price impact
    is a decimal from 0.1 to 2.5 followed by a percent sign.  The store is
    left as it was. *)
Theorem pool_metrics_in_bounds (pool_id : string) (w : World) :
  exists m,
    fst (get_pool_metrics pool_id w) = Success 200 m
    /\ m_poolId m = pool_id
    /\ metrics_in_bounds m
    /\ db (snd (get_pool_metrics pool_id w)) = db w.
Proof.
  unfold get_pool_metrics, round_uniform. run. unfold ret. cbn [fst snd].
  eexists. split; [reflexivity|]. split; [reflexivity|]. split.
  - unfold metrics_in_bounds.
    cbn [totalVolume24h fees24h lvrDetected auctionsTriggered mevRecovered
         lpRewardsDistributed avgAuctionParticipation priceImpactReduction].
    split; [eexists; split; [|reflexivity]; draw_bound|].
    split; [eexists; split; [|reflexivity]; draw_bound|].
    split; [draw_bound|]. split; [draw_bound|].
    split.
    { assert (1000 <= a3 <= 10000) by draw_bound.
      exists a3. split; [assumption | apply float_str2_value; lia]. }
    split.
    { assert (800 <= a4 <= 8500) by draw_bound.
      exists a4. split; [assumption | apply float_str2_value; lia]. }
    split; [draw_bound|].
    eexists. split; [|reflexivity]. draw_bound.
  - reflexivity.
Qed.

(** ** More on the create operation *)

Lemma complete_fields (b : AuctionBody) :
  complete b = true ->
  exists p wn wb tb ts bn,
    body_poolId b = Some p /\ body_winner b = Some wn
    /\ body_winningBid b = Some wb /\ body_totalBids b = Some tb
    /\ body_timestamp b = Some ts /\ body_blockNumber b = Some bn.
Proof.
  unfold complete.
  destruct (body_poolId b), (body_winner b), (body_winningBid b),
    (body_totalBids b), (body_timestamp b), (body_blockNumber b);
    try discriminate.
  intros _. do 6 eexists. repeat split; reflexivity.
Qed.

Lemma incomplete_fields (b : AuctionBody) :
  complete b = false ->
  body_poolId b = None \/ body_winner b = None \/ body_winningBid b = None
  \/ body_totalBids b = None \/ body_timestamp b = None
  \/ body_blockNumber b = None.
Proof.
  unfold complete.
  destruct (body_poolId b), (body_winner b), (body_winningBid b),
    (body_totalBids b), (body_timestamp b), (body_blockNumber b);
    try discriminate; intros _; tauto.
Qed.

(** What [POST /auctions] does with a complete body. *)
Lemma post_auctions_stores (b : AuctionBody) (w : World)
      (p wn wb ts : string) (tb bn : Z) :
  body_poolId b = Some p ->
  body_winner b = Some wn ->
  body_winningBid b = Some wb ->
  body_totalBids b = Some tb ->
  body_timestamp b = Some ts ->
  body_blockNumber b = Some bn ->
  let record :=
    {| id := match body_id b with
             | Some i => i
             | None => fresh w (fresh_pos w)
             end;
       poolId := p; winner := wn; winningBid := wb; totalBids := tb;
       timestamp := ts;
       status := match body_status b with
                 | Some s => s
                 | None => "completed"
                 end;
       blockNumber := bn |} in
  let i := fresh w (match body_id b with
                    | Some _ => fresh_pos w
                    | None => S (fresh_pos w)
                    end) in
  post_auctions b w
  = (Success 201 {| created_id := i;
                    message := "Auction created successfully" |},
     with_db {| auctions :=
                  (auctions (db w) ++ [{| oid := i; fields := record |}])%list;
                operators := operators (db w) |}
       (snd (post_auctions b w))).
Proof.
  intros Hp Hw Hwb Htb Hts Hbn. cbv zeta.
  unfold post_auctions, validate_AuctionRecord.
  rewrite Hp, Hw, Hwb, Htb, Hts, Hbn.
  destruct (body_id b); reflexivity.
Qed.









(** X11: no read shows what was created: after any [POST /auctions], the
    summary, the recent auctions and the detail view of any identifier are
    what they would be had the store been left as it was before. *)
Theorem reads_ignore_created (b : AuctionBody) (w : World) (i : string) :
  let w' := snd (post_auctions b w) in
  fst (get_auction_summary w')
  = fst (get_auction_summary (with_db (db w) w'))
  /\ fst (get_recent_auctions w')
     = fst (get_recent_auctions (with_db (db w) w'))
  /\ fst (get_auction_details i w')
     = fst (get_auction_details i (with_db (db w) w')).
Proof.
  cbv zeta. set (w' := snd (post_auctions b w)).
  split; [symmetry; apply summary_oblivious, same_sources_with_db|].
  split; [symmetry; apply recent_oblivious, same_sources_with_db|].
  symmetry. apply details_oblivious, same_sources_with_db.
Qed.

(** ** Status checks *)



(** X13: [GET /status] lists the first thousand stored status checks and no
    more: once a thousand are stored, a status check that is created is
    stored but the listing stays what it was. *)
Theorem status_listing_capped (name : string) (s : Server) :
  (1000 <=? List.length (status_checks s))%nat = true ->
  let s' := snd (create_status_check name s) in
  List.length (status_checks s') = S (List.length (status_checks s))
  /\ fst (get_status_checks s') = fst (get_status_checks s)
  /\ exists l,
      fst (get_status_checks s') = Success 200 l
      /\ List.length l = 1000%nat.
Proof.
  intro H. apply Nat.leb_le in H. cbv zeta.
  unfold create_status_check, get_status_checks, uuid4, datetime_utcnow.
  cbn [fst snd status_checks world].
  split; [rewrite length_app; simpl; lia|].
  rewrite firstn_app.
  replace (1000 - List.length (status_checks s))%nat with 0%nat by lia.
  rewrite firstn_O, app_nil_r.
  split; [reflexivity|].
  eexists. split; [reflexivity|].
  rewrite length_map, length_firstn. lia.
Qed.

Lemma status_listing_capped_witness :
  let s := sample_server thousand_statuses in
  let s' := snd (create_status_check "late" s) in
  List.length (status_checks s') = S (List.length (status_checks s))
  /\ fst (get_status_checks s') = fst (get_status_checks s)
  /\ exists l,
      fst (get_status_checks s') = Success 200 l
      /\ List.length l = 1000%nat.
Proof.
  apply (status_listing_capped "late" (sample_server thousand_statuses)).
  vm_compute. reflexivity.
Defined.

(** ** Paths *)

Lemma strip_prefix_app (p s : string) : strip_prefix p (p ++ s) = Some s.
Proof.
  induction p as [|c p IH]; simpl; [reflexivity|].
  now rewrite Ascii.eqb_refl.
Qed.

Lemma eqb_length (s t : string) :
  String.length s <> String.length t -> String.eqb s t = false.
Proof.
  intro H. apply String.eqb_neq. intro E. now subst.
Qed.

Lemma strip_suffix_app (suf p : string) :
  strip_suffix suf (p ++ suf) = Some p.
Proof.
  induction p as [|c p IH].
  - destruct suf; simpl; [reflexivity|].
    now rewrite Ascii.eqb_refl, String.eqb_refl.
  - change (String c p ++ suf) with (String c (p ++ suf)).
    cbn [strip_suffix].
    rewrite eqb_length by (simpl; rewrite append_length; lia).
    now rewrite IH.
Qed.

Lemma ends_with_app (suf p : string) : ends_with suf (p ++ suf) = true.
Proof.
  induction p as [|c p IH].
  - destruct suf; simpl; [reflexivity|].
    now rewrite Ascii.eqb_refl, String.eqb_refl.
  - change (String c p ++ suf) with (String c (p ++ suf)).
    cbn [ends_with]. rewrite IH. apply orb_true_r.
Qed.

Lemma no_slash_app (p q : string) :
  no_slash (p ++ String "/" q) = false.
Proof.
  induction p as [|c p IH]; simpl; [reflexivity|].
  rewrite IH. apply andb_false_r.
Qed.

(** A path with a slash in it is none of the words without. *)
Lemma eqb_no_slash (p q t : string) :
  no_slash t = true -> String.eqb (p ++ String "/" q) t = false.
Proof.
  intro Ht. apply String.eqb_neq. intro E.
  rewrite <- E, no_slash_app in Ht. discriminate.
Qed.

(** ** The handlers always answer *)

(** A handler that answers [code] in every world. *)
Ltac always_answers :=
  intro w;
  repeat (progress unfold root, health_check, get_auction_summary,
            get_recent_auctions, get_pool_performance, get_avs_operators,
            get_auction_details, get_pool_metrics, round_uniform);
  run; unfold ret; cbn [fst]; eexists; reflexivity.

Lemma root_ok : forall w, exists b, fst (root w) = Success 200 b.
Proof. always_answers. Qed.

Lemma health_ok : forall w, exists b, fst (health_check w) = Success 200 b.
Proof. always_answers. Qed.

Lemma summary_ok :
  forall w, exists b, fst (get_auction_summary w) = Success 200 b.
Proof. always_answers. Qed.

Lemma recent_ok :
  forall w, exists b, fst (get_recent_auctions w) = Success 200 b.
Proof. always_answers. Qed.

Lemma pools_ok :
  forall w, exists b, fst (get_pool_performance w) = Success 200 b.
Proof. always_answers. Qed.

Lemma operators_ok :
  forall w, exists b, fst (get_avs_operators w) = Success 200 b.
Proof. always_answers. Qed.

Lemma details_ok (i : string) :
  forall w, exists b, fst (get_auction_details i w) = Success 200 b.
Proof. always_answers. Qed.

Lemma metrics_ok (i : string) :
  forall w, exists b, fst (get_pool_metrics i w) = Success 200 b.
Proof. always_answers. Qed.

Lemma create_ok (b : AuctionBody) :
  complete b = true ->
  forall w, exists c, fst (post_auctions b w) = Success 201 c.
Proof.
  intros Hc w.
  destruct (complete_fields b Hc)
    as (p & wn & wb & tb & ts & bn & Hp & Hw & Hwb & Htb & Hts & Hbn).
  rewrite (post_auctions_stores b w p wn wb ts tb bn Hp Hw Hwb Htb Hts Hbn).
  eexists. reflexivity.
Qed.

(** ** The test suite against the server *)

Section Suite.

Variable error_detail : Z -> json.

(** The result of a request that a handler answers with a code from 200 to
    299. *)
Lemma received_answer {A} (h : M (Response A)) (enc : A -> json)
      (m p : string) (code : Z) (s : Server) :
  (forall w, exists b, fst (h w) = Success code b) ->
  (200 <=? code) && (code <? 300) = true ->
  exists b s',
    received m p (answer error_detail h enc s)
    = Some ({| endpoint := p; method := m;
               status_code := Some code;
               response_data := Some (enc b);
               success := true;
               error_message := None |}, s').
Proof.
  intros Hh Hc. unfold answer, lift.
  destruct (Hh (world s)) as [b Hb].
  destruct (h (world s)) as [r w'] eqn:E. cbn [fst] in Hb. subst r.
  cbn [http received]. rewrite Hc. eauto.
Qed.

Lemma requests_Forall2
      (Q : string * string * option json -> TestResult -> Prop)
      (rs : list (string * string * option json)) :
  Forall (fun rq =>
            forall s, exists r s',
              test_endpoint error_detail (fst (fst rq)) (snd (fst rq))
                (snd rq) s = Some (r, s')
              /\ Q rq r) rs ->
  forall s, exists results s',
    requests error_detail rs s = Some (results, s')
    /\ Forall2 Q rs results.
Proof.
  induction 1 as [|[[m p] d] rs Hrq _ IH]; intro s.
  - exists [], s. split; [reflexivity | constructor].
  - destruct (Hrq s) as (r & s1 & E & HQ). cbn [fst snd] in E.
    destruct (IH s1) as (results & s2 & E2 & HF).
    exists (r :: results), s2. cbn [requests]. rewrite E, E2.
    split; [reflexivity | constructor; assumption].
Qed.

End Suite.

Lemma validate_passed (results : list TestResult) :
  Forall passed results ->
  validate_response_schema results
  = Some (map (fun r => validation_of r []) results).
Proof.
  induction 1 as [|r results [Hs Hi] _ IH]; [reflexivity|].
  cbn [validate_response_schema map]. now rewrite Hs, Hi, IH.
Qed.

Lemma count_all {A} (f : A -> bool) (l : list A) :
  Forall (fun x => f x = true) l -> count f l = List.length l.
Proof.
  unfold count. induction 1 as [|x l Hx _ IH]; [reflexivity|].
  simpl. rewrite Hx. simpl. now rewrite IH.
Qed.

Lemma exit_code_passed (results : list TestResult) :
  Forall passed results -> exit_code results = Some 0.
Proof.
  intro H. unfold exit_code. rewrite (validate_passed results H).
  rewrite (count_all success results)
    by (eapply Forall_impl; [|exact H]; intros r [Hs _]; exact Hs).
  rewrite (count_all valid_schema)
    by (apply Forall_map, Forall_forall; reflexivity).
  now rewrite !Nat.eqb_refl.
Qed.

(** Comparing a path that begins with known characters. *)
Ltac path_steps :=
  cbn [String.eqb Ascii.eqb Bool.eqb append strip_prefix starts_with
       andb negb upper upper_ascii].

Section Suite_requests.

Variable error_detail : Z -> json.

Ltac answered H :=
  let b := fresh "b" in
  let s' := fresh "s" in
  let E := fresh "E" in
  destruct H as (b & s' & E); rewrite E;
  eexists; exists s'; split; [reflexivity|].

Lemma root_passes : passes error_detail "GET" "/" None.
Proof.
  intro s.
  change (test_endpoint error_detail "GET" "/" None s)
    with (received "GET" "/" (answer error_detail root enc_root s)).
  answered (received_answer error_detail root enc_root "GET" "/" 200 s
              root_ok eq_refl).
  split; reflexivity.
Qed.

Lemma health_passes : passes error_detail "GET" "/health" None.
Proof.
  intro s.
  change (test_endpoint error_detail "GET" "/health" None s)
    with (received "GET" "/health"
            (answer error_detail health_check enc_health s)).
  answered (received_answer error_detail health_check enc_health
              "GET" "/health" 200 s health_ok eq_refl).
  split; reflexivity.
Qed.

Lemma summary_passes : passes error_detail "GET" "/auctions/summary" None.
Proof.
  intro s.
  change (test_endpoint error_detail "GET" "/auctions/summary" None s)
    with (received "GET" "/auctions/summary"
            (answer error_detail get_auction_summary enc_summary s)).
  answered (received_answer error_detail get_auction_summary enc_summary
              "GET" "/auctions/summary" 200 s summary_ok eq_refl).
  split; reflexivity.
Qed.

Lemma recent_passes : passes error_detail "GET" "/auctions/recent" None.
Proof.
  intro s.
  change (test_endpoint error_detail "GET" "/auctions/recent" None s)
    with (received "GET" "/auctions/recent"
            (answer error_detail get_recent_auctions
               (enc_list enc_auction) s)).
  answered (received_answer error_detail get_recent_auctions
              (enc_list enc_auction)
              "GET" "/auctions/recent" 200 s recent_ok eq_refl).
  split; [reflexivity|]. destruct b; reflexivity.
Qed.

Lemma pools_passes : passes error_detail "GET" "/pools/performance" None.
Proof.
  intro s.
  change (test_endpoint error_detail "GET" "/pools/performance" None s)
    with (received "GET" "/pools/performance"
            (answer error_detail get_pool_performance
               (enc_list enc_pool) s)).
  answered (received_answer error_detail get_pool_performance
              (enc_list enc_pool)
              "GET" "/pools/performance" 200 s pools_ok eq_refl).
  split; [reflexivity|]. destruct b; reflexivity.
Qed.

Lemma operators_passes : passes error_detail "GET" "/operators" None.
Proof.
  intro s.
  change (test_endpoint error_detail "GET" "/operators" None s)
    with (received "GET" "/operators"
            (answer error_detail get_avs_operators
               (enc_list enc_operator) s)).
  answered (received_answer error_detail get_avs_operators
              (enc_list enc_operator)
              "GET" "/operators" 200 s operators_ok eq_refl).
  split; [reflexivity|]. destruct b; reflexivity.
Qed.

Lemma details_passes (auction_id : string) :
  path_segment auction_id = true ->
  passes error_detail "GET" ("/auctions/" ++ auction_id) None.
Proof.
  intros Hseg s.
  destruct (String.eqb auction_id "summary") eqn:E1;
    [apply String.eqb_eq in E1; subst; exact (summary_passes s)|].
  destruct (String.eqb auction_id "recent") eqn:E2;
    [apply String.eqb_eq in E2; subst; exact (recent_passes s)|].
  change (test_endpoint error_detail "GET" ("/auctions/" ++ auction_id) None s)
    with (received "GET" ("/auctions/" ++ auction_id)
            (serve error_detail "GET" ("/auctions/" ++ auction_id) None s)).
  replace (serve error_detail "GET" ("/auctions/" ++ auction_id) None s)
    with (answer error_detail (get_auction_details auction_id)
            enc_details s)
    by (unfold serve; path_steps; now rewrite E1, E2, Hseg).
  answered (received_answer error_detail (get_auction_details auction_id)
              enc_details "GET" ("/auctions/" ++ auction_id) 200 s
              (details_ok auction_id) eq_refl).
  split; [reflexivity|].
  unfold schema_issues. cbn [endpoint response_data method]. path_steps.
  rewrite E1, E2. reflexivity.
Qed.

Lemma metrics_passes (pool : string) :
  path_segment pool = true ->
  passes error_detail "GET" ("/pools/" ++ pool ++ "/metrics") None.
Proof.
  intros Hseg s.
  change (test_endpoint error_detail "GET"
            ("/pools/" ++ pool ++ "/metrics") None s)
    with (received "GET" ("/pools/" ++ pool ++ "/metrics")
            (serve error_detail "GET" ("/pools/" ++ pool ++ "/metrics")
               None s)).
  replace (serve error_detail "GET" ("/pools/" ++ pool ++ "/metrics") None s)
    with (answer error_detail (get_pool_metrics pool) enc_metrics s)
    by (unfold serve; path_steps;
        rewrite (eqb_no_slash pool "metrics" "performance" eq_refl);
        now rewrite strip_suffix_app, Hseg).
  answered (received_answer error_detail (get_pool_metrics pool)
              enc_metrics "GET" ("/pools/" ++ pool ++ "/metrics") 200 s
              (metrics_ok pool) eq_refl).
  split; [reflexivity|].
  unfold schema_issues. cbn [endpoint response_data method]. path_steps.
  rewrite (eqb_no_slash pool "metrics" "performance" eq_refl).
  match goal with
  | |- context [ends_with ?suf ?path] =>
      replace (ends_with suf path) with true
        by (symmetry; exact (ends_with_app "/metrics" ("/pools/" ++ pool)))
  end.
  reflexivity.
Qed.

Lemma create_passes (data : json) (b : AuctionBody) :
  auction_body_of_json data = Some b ->
  complete b = true ->
  passes error_detail "POST" "/auctions" (Some data).
Proof.
  intros Hb Hc s.
  change (test_endpoint error_detail "POST" "/auctions" (Some data) s)
    with (received "POST" "/auctions"
            (serve error_detail "POST" "/auctions" (Some data) s)).
  replace (serve error_detail "POST" "/auctions" (Some data) s)
    with (answer error_detail (post_auctions b) enc_created s)
    by (unfold serve; path_steps; now rewrite Hb).
  answered (received_answer error_detail (post_auctions b) enc_created
              "POST" "/auctions" 201 s (create_ok b Hc) eq_refl).
  split; reflexivity.
Qed.

End Suite_requests.

Lemma all_plain_no_slash (s : string) : all_plain s = true -> no_slash s = true.
Proof.
  induction s as [|c s IH]; simpl; [reflexivity|].
  intro H. apply andb_true_iff in H. destruct H as [Hc Hs].
  rewrite (IH Hs), andb_true_r.
  destruct (Ascii.eqb c "/") eqn:E; [|reflexivity].
  apply Ascii.eqb_eq in E. subst c. discriminate Hc.
Qed.

Lemma plain_segment_path (s : string) :
  plain_segment s = true -> path_segment s = true.
Proof.
  unfold plain_segment, path_segment. intro H.
  apply andb_true_iff in H. destruct H as [Hne Hp].
  now rewrite Hne, (all_plain_no_slash s Hp).
Qed.

(** X14: run against the server of [server.py], the test suite passes in
    every state of the server: for an auction identifier and a pool
    identifier made of letters, digits and hyphens, each of the nine requests
    of [run_tests] is answered with success, no issue is found in any answer,
    and [main] exits with 0. *)
Theorem test_suite_passes (error_detail : Z -> json)
        (auction_id pool_id data_pool data_winner now : string)
        (s : Server) :
  plain_segment auction_id = true ->
  plain_segment pool_id = true ->
  (exists results s',
      run_tests error_detail auction_id pool_id data_pool data_winner now s
      = Some (results, s')
      /\ List.length results = 9%nat
      /\ Forall passed results)
  /\ main error_detail auction_id pool_id data_pool data_winner now s
     = Some 0.
Proof.
  intros Ha Hp.
  apply plain_segment_path in Ha. apply plain_segment_path in Hp.
  destruct (requests_Forall2 error_detail (fun _ r => passed r)
              [("GET", "/", None);
               ("GET", "/health", None);
               ("GET", "/auctions/summary", None);
               ("GET", "/auctions/recent", None);
               ("GET", "/pools/performance", None);
               ("GET", "/operators", None);
               ("GET", "/auctions/" ++ auction_id, None);
               ("GET", "/pools/" ++ pool_id ++ "/metrics", None);
               ("POST", "/auctions",
                Some (auction_data data_pool data_winner now))])
    with (s := s) as (results & s' & E & HF).
  { repeat constructor; cbn [fst snd].
    - apply root_passes.
    - apply health_passes.
    - apply summary_passes.
    - apply recent_passes.
    - apply pools_passes.
    - apply operators_passes.
    - apply details_passes, Ha.
    - apply metrics_passes, Hp.
    - eapply create_passes; reflexivity. }
  assert (Hall : Forall passed results).
  { clear E. induction HF; constructor; assumption. }
  split.
  - exists results, s'. split; [exact E|]. split; [|exact Hall].
    symmetry. apply (Forall2_length HF).
  - unfold main, run_tests. rewrite E. apply exit_code_passed, Hall.
Qed.

Lemma test_suite_passes_witness :
  (exists results s',
      run_tests no_detail "0c2e2c5e-7f1c-4d0a-9b0a-3e1f2a4b5c6d"
        "0x0123456789abcdef0123456789abcdef" "0xaa" "0xbb"
        "2025-11-03 12:00:00" (sample_server [])
      = Some (results, s')
      /\ List.length results = 9%nat
      /\ Forall passed results)
  /\ main no_detail "0c2e2c5e-7f1c-4d0a-9b0a-3e1f2a4b5c6d"
       "0x0123456789abcdef0123456789abcdef" "0xaa" "0xbb"
       "2025-11-03 12:00:00" (sample_server [])
     = Some 0.
Proof.
  apply (test_suite_passes no_detail "0c2e2c5e-7f1c-4d0a-9b0a-3e1f2a4b5c6d"
           "0x0123456789abcdef0123456789abcdef" "0xaa" "0xbb"
           "2025-11-03 12:00:00" (sample_server []));
    reflexivity.
Defined.

(** ** What the checks of the suite let through *)

Lemma validate_length (results : list TestResult) (vs : list Validation) :
  validate_response_schema results = Some vs ->
  List.length vs = count success results.
Proof.
  unfold count. revert vs.
  induction results as [|r results IH]; intros vs H.
  - injection H as <-. reflexivity.
  - cbn [validate_response_schema filter] in *.
    destruct (success r); [|apply IH, H].
    destruct (schema_issues r); [|discriminate].
    destruct (validate_response_schema results) as [vs'|]; [|discriminate].
    injection H as <-. simpl. now rewrite (IH vs' eq_refl).
Qed.

Lemma count_length_iff {A} (f : A -> bool) (l : list A) :
  Nat.eqb (count f l) (List.length l) = forallb f l.
Proof.
  unfold count.
  assert (Hle : forall l', (List.length (filter f l') <= List.length l')%nat)
    by (intro l'; apply filter_length_le).
  induction l as [|x l IH]; [reflexivity|].
  simpl. destruct (f x); simpl.
  - exact IH.
  - apply Nat.eqb_neq. specialize (Hle l). lia.
Qed.

(** X15: [main] exits with 0 exactly when every request succeeded and
    every validation is valid; a request that failed is not validated, so
    the validations are as many as the successes. *)
Theorem exit_code_zero_iff (results : list TestResult)
        (vs : list Validation) :
  validate_response_schema results = Some vs ->
  List.length vs = count success results
  /\ (exit_code results = Some 0
      <-> forallb success results = true /\ forallb valid_schema vs = true)
  /\ (exit_code results = Some 0 \/ exit_code results = Some 1).
Proof.
  intro H. split; [apply validate_length, H|].
  unfold exit_code. rewrite H. rewrite !count_length_iff.
  destruct (forallb success results), (forallb valid_schema vs); simpl;
    (split; [split; [intro E; first [split; reflexivity | discriminate E]
                    | intros [E1 E2];
                      first [reflexivity | discriminate E1 | discriminate E2]]
            | first [left; reflexivity | right; reflexivity]]).
Qed.

Lemma exit_code_zero_iff_witness :
  List.length sample_validations = count success sample_results
  /\ (exit_code sample_results = Some 0
      <-> forallb success sample_results = true
          /\ forallb valid_schema sample_validations = true)
  /\ (exit_code sample_results = Some 0 \/ exit_code sample_results = Some 1).
Proof.
  apply (exit_code_zero_iff sample_results sample_validations). reflexivity.
Defined.

(** X16: the validation of a list endpoint looks at the first item only:
    a response whose first item is a record of the endpoint passes whatever
    the items after it are, and so does the empty list. *)
Theorem list_schema_checks_first_only
        (m : string) (code : option Z) (ok : bool) (err : option string)
        (a : AuctionRecord) (p : PoolPerformance) (o : AVSOperator)
        (others : list json) :
  let result e data :=
    {| endpoint := e; method := m; status_code := code;
       response_data := Some data; success := ok; error_message := err |} in
  schema_issues (result "/auctions/recent" (JList (enc_auction a :: others)))
  = Some []
  /\ schema_issues (result "/pools/performance" (JList (enc_pool p :: others)))
     = Some []
  /\ schema_issues (result "/operators" (JList (enc_operator o :: others)))
     = Some []
  /\ schema_issues (result "/auctions/recent" (JList [])) = Some []
  /\ schema_issues (result "/pools/performance" (JList [])) = Some []
  /\ schema_issues (result "/operators" (JList [])) = Some [].
Proof.
  cbv zeta. repeat split; reflexivity.
Qed.



(** X18: a create request that the server refuses fails its test: posted
    with a required field absent, it comes back with 422, the result is
    marked failed with the message of the unexpected status code, and the
    store is left as it was. *)
Theorem refused_create_fails_test (error_detail : Z -> json)
        (data : json) (b : AuctionBody) (s : Server) :
  auction_body_of_json data = Some b ->
  complete b = false ->
  exists r s',
    test_endpoint error_detail "POST" "/auctions" (Some data) s = Some (r, s')
    /\ success r = false
    /\ status_code r = Some 422
    /\ error_message r = Some "Unexpected status code: 422"
    /\ db (world s') = db (world s)
    /\ status_checks s' = status_checks s.
Proof.
  intros Hb Hc.
  change (test_endpoint error_detail "POST" "/auctions" (Some data) s)
    with (received "POST" "/auctions"
            (serve error_detail "POST" "/auctions" (Some data) s)).
  replace (serve error_detail "POST" "/auctions" (Some data) s)
    with (answer error_detail (post_auctions b) enc_created s)
    by (unfold serve; path_steps; now rewrite Hb).
  unfold answer, lift.
  destruct (post_auctions_incomplete b (world s) (incomplete_fields b Hc))
    as [Hr Hd].
  destruct (post_auctions b (world s)) as [r w'] eqn:E.
  cbn [fst snd] in Hr, Hd. subst r.
  cbn [http received ValidationError].
  do 2 eexists. split; [reflexivity|].
  cbn [success status_code error_message world status_checks].
  repeat split; try reflexivity. exact Hd.
Qed.

Lemma refused_create_fails_test_witness :
  exists r s',
    test_endpoint no_detail "POST" "/auctions" (Some incomplete_data)
      (sample_server []) = Some (r, s')
    /\ success r = false
    /\ status_code r = Some 422
    /\ error_message r = Some "Unexpected status code: 422"
    /\ db (world s') = db (world (sample_server []))
    /\ status_checks s' = status_checks (sample_server []).
Proof.
  apply (refused_create_fails_test no_detail incomplete_data
           {| body_id := None; body_poolId := Some "0x01";
              body_winner := None; body_winningBid := None;
              body_totalBids := None; body_timestamp := None;
              body_status := None; body_blockNumber := None |}
           (sample_server [])); reflexivity.
Defined.

(** ** The participants of a detail view *)

Lemma mock_participant_bounds (w : World) :
  participant_in_bounds (fst (mock_participant w)).
Proof.
  unfold mock_participant, round_uniform. run. unfold ret. cbn [fst].
  split; cbn [p_address bid].
  - subst a. apply random_address_mock.
  - assert (500 <= a0 <= 4000) by draw_bound.
    exists a0. split; [assumption | apply float_str3_value; lia].
Qed.

(** X19: every participant of a detail view has a generated address and a
    bid from 0.5 to 4.0, drawn apart from the winning bid of the view. *)
Theorem details_participants_in_bounds (auction_id : string) (w : World) :
  exists d,
    fst (get_auction_details auction_id w) = Success 200 d
    /\ Forall participant_in_bounds (participants d).
Proof.
  unfold get_auction_details. run. unfold ret.
  eexists. split; [reflexivity|]. cbn [participants].
  match goal with
  | a := fst (replicateM ?n mock_participant ?w') |- _ =>
      subst a;
      apply (replicateM_Forall (fun _ => True) participant_in_bounds
               mock_participant)
  end; [|exact I].
  intros w' _. split; [apply mock_participant_bounds | exact I].
Qed.
